(** * GitHubReader: repository crawling and business discovery

    A shallow embedding of [src/core/integrations/githubReader.js] and the
    properties of its six public operations.

    Conventions of the embedding:
    - a JavaScript [try { ... } catch (error) { ... }] is [try_catch];
      a rejected promise or thrown exception is [Throw];
    - every [await this.octokit.rest...] call is recorded in a request log, so
      that the number of transport calls of a run can be counted;
    - [null] and [undefined] are [None]; JavaScript truthiness is written out
      ([truthy_string], [truthy_number]);
    - strings are sequences of ASCII characters;
    - in the first two parts thrown values are [Error] objects (they carry a
      [message]), which is what the Octokit client and the JavaScript runtime
      throw; the last part ([Raw]) admits every rejection value and writes out
      the handlers' read of [error.message]. *)

From Stdlib Require Import String Ascii List ZArith NArith Lia Bool Permutation Sorted.
From Stdlib Require Import DecimalString.
Import ListNotations.
Local Open Scope string_scope.
Local Open Scope list_scope.
Local Open Scope Z_scope.

Set Implicit Arguments.
Set Default Proof Using "Type".

(* ================================================================== *)
(** ** Exceptions and results *)

Inductive exn : Type :=
| HttpError (status : Z) (message : string)
| TypeError (message : string).

Inductive result (A : Type) : Type :=
| Ok (a : A)
| Throw (e : exn).

Arguments Ok {A} a.
Arguments Throw {A} e.

Definition is_ok {A} (r : result A) : bool :=
  match r with Ok _ => true | Throw _ => false end.

(** [try { body } catch (error) { handler(error) }] for code that makes no
    transport call. *)
Definition try_catch_pure {A} (body : result A) (handler : exn -> result A) : result A :=
  match body with
  | Ok a => Ok a
  | Throw e => handler e
  end.

(* ================================================================== *)
(** ** JavaScript strings *)

Definition lower_ascii (c : ascii) : ascii :=
  let n := nat_of_ascii c in
  if (Nat.leb 65 n && Nat.leb n 90)%bool then ascii_of_nat (n + 32) else c.

(** [String.prototype.toLowerCase] on ASCII text. *)
Fixpoint toLowerCase (s : string) : string :=
  match s with
  | EmptyString => EmptyString
  | String c rest => String (lower_ascii c) (toLowerCase rest)
  end.

(** [String.prototype.includes]: substring containment. *)
Fixpoint includes (s sub : string) : bool :=
  if String.prefix sub s then true
  else match s with
       | EmptyString => false
       | String _ rest => includes rest sub
       end.

(** [Array.prototype.join]. *)
Fixpoint join (sep : string) (l : list string) : string :=
  match l with
  | [] => ""
  | [x] => x
  | x :: rest => (x ++ sep ++ join sep rest)%string
  end.

(** [s.split(sep)[0]] for a one-character separator: the text before the first
    occurrence of [sep], or all of [s] when there is none. *)
Fixpoint split_first (sep : ascii) (s : string) : string :=
  match s with
  | EmptyString => EmptyString
  | String c rest => if Ascii.eqb c sep then EmptyString else String c (split_first sep rest)
  end.

(** Truthiness of a string-or-undefined and of a number-or-undefined value. *)
Definition truthy_string (v : option string) : bool :=
  match v with
  | Some s => negb (String.eqb s "")
  | None => false
  end.

Definition truthy_number (v : option Z) : bool :=
  match v with
  | Some n => negb (Z.eqb n 0)
  | None => false
  end.

(** [a || b] on strings and on numbers. *)
Definition or_string (v : option string) (default : string) : string :=
  match v with
  | Some s => if String.eqb s "" then default else s
  | None => default
  end.

Definition or_number (v : option Z) (default : Z) : Z :=
  match v with
  | Some n => if Z.eqb n 0 then default else n
  | None => default
  end.

(** [String(n)] inside a template literal, for the integers that print in
    plain decimal notation (absolute value below 10^21). *)
Definition number_to_string (n : Z) : string :=
  NilZero.string_of_int (Z.to_int n).

(** The names every plain object literal inherits from [Object.prototype].
    Reading one of them from an object that does not define it yields the
    inherited function (or, for [__proto__], the prototype itself): a truthy
    value that is neither a profile nor a [Date]. *)
Definition Object_prototype_keys : list string :=
  [ "constructor"; "__defineGetter__"; "__defineSetter__"; "hasOwnProperty";
    "__lookupGetter__"; "__lookupSetter__"; "isPrototypeOf";
    "propertyIsEnumerable"; "toString"; "valueOf"; "__proto__";
    "toLocaleString" ].

Definition inherited (key : string) : bool :=
  existsb (String.eqb key) Object_prototype_keys.

(* ================================================================== *)
(** ** The [path] module and the identifier [path] *)

(** Suffix of [s] that starts at its last dot. *)
Fixpoint last_dot_suffix (s : string) : option string :=
  match s with
  | EmptyString => None
  | String c rest =>
      match last_dot_suffix rest with
      | Some t => Some t
      | None => if Ascii.eqb c "."%char then Some s else None
      end
  end.

(** Node's [path.extname] on a base name (no directory separator): the text
    from the last dot on, and the empty string when there is no dot, when the
    only dot is the first character, or when the name is [".."]. *)
Definition path_extname (name : string) : string :=
  match last_dot_suffix name with
  | None => ""
  | Some ext =>
      if (Nat.eqb (String.length ext) (String.length name) || String.eqb name "..")%bool
      then "" else ext
  end.

(** What an identifier can be bound to where [.extname(...)] is called on it:
    the module required at line 3, or a string. *)
Inductive js_binding : Type :=
| PathModule
| StringValue (s : string).

(** [recv.extname(arg)]. A string has no [extname] property, so calling it
    throws [TypeError: recv.extname is not a function]. *)
Definition call_extname (recv : js_binding) (arg : string) : result string :=
  match recv with
  | PathModule => Ok (path_extname arg)
  | StringValue _ => Throw (TypeError "path.extname is not a function")
  end.

(* ================================================================== *)
(** ** TreeWalker: [listRepoFiles] *)

(** A tree snapshot. Each entry of a directory listing is a file, a directory
    or something else (symlink, submodule); a directory entry carries what
    [repos.getContent] answers for its path. *)
Inductive item : Type :=
| FileItem (name path : string) (size : Z) (download_url : string)
| DirItem (name path : string) (contents : response)
| OtherItem (type name path : string)
with response : Type :=
| Rejects (e : exn)
| DataArray (items : list item)
| DataObject (i : item).

Record FileEntry : Type := mkFileEntry {
  fe_name : string;
  fe_path : string;
  fe_size : Z;
  fe_download_url : string;
  fe_type : string;
  fe_extension : string
}.

(** [listRepoFiles(owner, repo, path, ref, extensions)], lines 25-62, against
    the answer [r] of [repos.getContent({owner, repo, path, ref})].

    Inside the function the identifier [path] is the third parameter, a string,
    which shadows the module bound at line 3; line 39 therefore calls
    [extname] on [StringValue path]. [visit] is the body of the [for] loop
    with the accumulator [files]. *)
Fixpoint listRepoFiles (owner repo path ref : string) (extensions : list string)
    (r : response) {struct r} : result (list FileEntry) :=
  try_catch_pure
    (match r with
     | Rejects e => Throw e
     | DataArray contents =>
         (fix loop (contents : list item) (files : list FileEntry) {struct contents} :=
            match contents with
            | [] => Ok files
            | it :: rest =>
                match visit owner repo path ref extensions it files with
                | Ok files' => loop rest files'
                | Throw e => Throw e
                end
            end) contents []
     | DataObject it => visit owner repo path ref extensions it []
     end)
    (fun _ => Ok [])
with visit (owner repo path ref : string) (extensions : list string)
    (it : item) (files : list FileEntry) {struct it} : result (list FileEntry) :=
  match it with
  | FileItem name ipath size url =>
      match call_extname (StringValue path) name with
      | Throw e => Throw e
      | Ok ext =>
          let fileExt := toLowerCase ext in
          if (Nat.eqb (List.length extensions) 0
              || existsb (String.eqb fileExt) extensions)%bool
          then Ok (files ++ [mkFileEntry name ipath size url "file" fileExt])
          else Ok files
      end
  | DirItem _ ipath contents =>
      match listRepoFiles owner repo ipath ref extensions contents with
      | Ok subFiles => Ok (files ++ subFiles)
      | Throw e => Throw e
      end
  | OtherItem _ _ _ => Ok files
  end.

(** The listing the specification describes: every file of the snapshot, in
    document order and depth first, that passes the extension filter. A file
    passes when the filter is empty or when its lower-cased extension equals
    one of the filter's strings compared without regard to case. *)
Definition spec_passes (extensions : list string) (name : string) : bool :=
  (Nat.eqb (List.length extensions) 0
   || existsb (fun e => String.eqb (toLowerCase (path_extname name)) (toLowerCase e))
        extensions)%bool.

Fixpoint spec_listFiles (extensions : list string) (r : response) {struct r}
    : list FileEntry :=
  match r with
  | Rejects _ => []
  | DataArray contents =>
      (fix each (contents : list item) {struct contents} :=
         match contents with
         | [] => []
         | it :: rest => spec_item extensions it ++ each rest
         end) contents
  | DataObject it => spec_item extensions it
  end
with spec_item (extensions : list string) (it : item) {struct it} : list FileEntry :=
  match it with
  | FileItem name ipath size url =>
      if spec_passes extensions name
      then [mkFileEntry name ipath size url "file" (toLowerCase (path_extname name))]
      else []
  | DirItem _ _ contents => spec_listFiles extensions contents
  | OtherItem _ _ _ => []
  end.

(** A repository root with one file and one sub-directory holding one file. *)
Definition sample_tree : response :=
  DataArray
    [ FileItem "index.js" "index.js" 120 "https://raw.example/index.js";
      DirItem "docs" "docs"
        (DataArray [ FileItem "README.md" "docs/README.md" 300
                       "https://raw.example/docs/README.md" ]) ].

(* ================================================================== *)
(** ** The transport and the monad of transport calls *)

(** [searchOptions] as built at lines 113-119. *)
Record SearchOptions : Type := mkSearchOptions {
  so_q : string;
  so_sort : string;
  so_order : string;
  so_per_page : Z;
  so_page : Z
}.

(** Every call made on [this.octokit.rest]. *)
Inductive request : Type :=
| GetContent (owner repo path ref : string)
| ReposGet (owner repo : string)
| SearchRepos (searchOptions : SearchOptions)
| GetByUsername (username : string).

(** A computation reads the log of the requests made so far and returns a
    value or a thrown error together with the extended log. The log survives
    an exception, as the calls already made are not undone by a [catch]. *)
Definition M (A : Type) : Type := list request -> result A * list request.

Definition ret {A} (a : A) : M A := fun log => (Ok a, log).

Definition throw {A} (e : exn) : M A := fun log => (Throw e, log).

Definition bind {A B} (m : M A) (k : A -> M B) : M B :=
  fun log =>
    match m log with
    | (Ok a, log') => k a log'
    | (Throw e, log') => (Throw e, log')
    end.

Definition try_catch {A} (body : M A) (handler : exn -> M A) : M A :=
  fun log =>
    match body log with
    | (Ok a, log') => (Ok a, log')
    | (Throw e, log') => handler e log'
    end.

(** [await this.octokit.rest...(req)]: the request is logged and its answer,
    a resolved value or a rejection, is returned. *)
Definition await {A} (req : request) (answer : result A) : M A :=
  fun log => (answer, log ++ [req]).

Definition lift {A} (r : result A) : M A := fun log => (r, log).

Notation "x <- m ;; k" := (bind m (fun x => k))
  (at level 61, m at next level, right associativity).

(** A [for (const x of xs)] loop that threads the loop state [s]. *)
Fixpoint for_of {A S} (xs : list A) (body : S -> A -> M S) (s : S) : M S :=
  match xs with
  | [] => ret s
  | x :: rest => s' <- body s x ;; for_of rest body s'
  end.

(** [Array.prototype.map] with a callback that may throw. *)
Fixpoint map_result {A B} (f : A -> result B) (l : list A) : result (list B) :=
  match l with
  | [] => Ok []
  | x :: rest =>
      match f x with
      | Throw e => Throw e
      | Ok y =>
          match map_result f rest with
          | Throw e => Throw e
          | Ok ys => Ok (y :: ys)
          end
      end
  end.

(** [response.data] of [repos.getContent] for a path that names a file. *)
Record FilePayload : Type := mkFilePayload {
  fp_name : string;
  fp_path : string;
  fp_size : Z;
  fp_encoding : option string;
  fp_content : option string;
  fp_sha : string;
  fp_download_url : option string
}.

(** The value [fetchRepoFile] returns, lines 90-98. *)
Record FileContent : Type := mkFileContent {
  fc_name : string;
  fc_path : string;
  fc_size : Z;
  fc_content : option string;
  fc_encoding : option string;
  fc_sha : string;
  fc_download_url : option string
}.

(** One element of [response.data.items] of [search.repos]. [ri_owner] is
    [repo.owner.login], [None] when [repo.owner] is null; [ri_license] is
    [repo.license.name], [None] when [repo.license] is null. *)
Record RepoItem : Type := mkRepoItem {
  ri_id : Z;
  ri_name : string;
  ri_full_name : string;
  ri_owner : option string;
  ri_description : option string;
  ri_html_url : string;
  ri_clone_url : string;
  ri_language : option string;
  ri_stargazers_count : Z;
  ri_forks_count : Z;
  ri_open_issues_count : Z;
  ri_topics : option (list string);
  ri_created_at : string;
  ri_updated_at : string;
  ri_license : option string
}.

(** The repository objects [searchRepositories] returns, lines 123-139. *)
Record Repository : Type := mkRepository {
  r_id : Z;
  r_name : string;
  r_full_name : string;
  r_owner : string;
  r_description : option string;
  r_url : string;
  r_clone_url : string;
  r_language : option string;
  r_stars : Z;
  r_forks : Z;
  r_issues : Z;
  r_topics : list string;
  r_created_at : string;
  r_updated_at : string;
  r_license : option string
}.

(** [orgResponse.data] of [users.getByUsername]. *)
Record OrgData : Type := mkOrgData {
  od_name : option string;
  od_type : string;
  od_bio : option string;
  od_location : option string;
  od_blog : option string;
  od_html_url : string;
  od_avatar_url : string;
  od_public_repos : Z;
  od_followers : Z;
  od_following : Z;
  od_created_at : string
}.

(** [repoResponse.data] of [repos.get]. [rd_license] is the license name when
    [repoData.license] is an object. *)
Record RepoData : Type := mkRepoData {
  rd_full_name : string;
  rd_description : option string;
  rd_language : option string;
  rd_stargazers_count : Z;
  rd_forks_count : Z;
  rd_open_issues_count : Z;
  rd_topics : option (list string);
  rd_license : option string;
  rd_homepage : option string;
  rd_created_at : string;
  rd_updated_at : string
}.

(** The four endpoints of [this.octokit.rest] the module uses. *)
Record Octokit : Type := mkOctokit {
  repos_getContent : string -> string -> string -> string -> result FilePayload;
  repos_get : string -> string -> result RepoData;
  search_repos : SearchOptions -> result (list RepoItem);
  users_getByUsername : string -> result OrgData
}.

(** The [options] argument of [searchRepositories]. *)
Record Options : Type := mkOptions {
  opt_sort : option string;
  opt_order : option string;
  opt_per_page : option Z;
  opt_page : option Z
}.

Definition option_string_eqb (v : option string) (s : string) : bool :=
  match v with
  | Some x => String.eqb x s
  | None => false
  end.

(** The callback of [items.map], lines 123-139. Reading [repo.owner.login]
    throws when [repo.owner] is null. *)
Definition to_repository (repo : RepoItem) : result Repository :=
  match ri_owner repo with
  | None => Throw (TypeError "Cannot read properties of null (reading 'login')")
  | Some login =>
      Ok {| r_id := ri_id repo;
            r_name := ri_name repo;
            r_full_name := ri_full_name repo;
            r_owner := login;
            r_description := ri_description repo;
            r_url := ri_html_url repo;
            r_clone_url := ri_clone_url repo;
            r_language := ri_language repo;
            r_stars := ri_stargazers_count repo;
            r_forks := ri_forks_count repo;
            r_issues := ri_open_issues_count repo;
            r_topics := match ri_topics repo with Some t => t | None => [] end;
            r_created_at := ri_created_at repo;
            r_updated_at := ri_updated_at repo;
            r_license := if truthy_string (ri_license repo) then ri_license repo else None |}
  end.

(* ================================================================== *)
(** ** Plain objects used as maps, and array sorting *)

(** [Array.prototype.sort(compareFn)]. With a consistent comparator the
    result is determined by the language: sorted for [compareFn] and stable.
    It is computed here by insertion from the right, where an element is
    placed before the first one it does not have to follow. *)
Fixpoint sort_insert {A} (compareFn : A -> A -> Z) (x : A) (l : list A) : list A :=
  match l with
  | [] => [x]
  | y :: rest =>
      if 0 <? compareFn x y then y :: sort_insert compareFn x rest else x :: l
  end.

Fixpoint Array_sort {A} (compareFn : A -> A -> Z) (l : list A) : list A :=
  match l with
  | [] => []
  | x :: rest => sort_insert compareFn x (Array_sort compareFn rest)
  end.

Definition is_digit (c : ascii) : bool :=
  let n := nat_of_ascii c in (Nat.leb 48 n && Nat.leb n 57)%bool.

Fixpoint parse_digits (s : string) (acc : N) : option N :=
  match s with
  | EmptyString => Some acc
  | String c rest =>
      if is_digit c
      then parse_digits rest (acc * 10 + N.of_nat (nat_of_ascii c - 48))%N
      else None
  end.

(** A property name is an array index when it is the canonical decimal form
    of an integer between 0 and 2^32 - 2. *)
Definition array_index (key : string) : option N :=
  match key with
  | EmptyString => None
  | String c rest =>
      if (Ascii.eqb c "0"%char && negb (String.eqb rest ""))%bool then None
      else match parse_digits key 0%N with
           | Some n => if (n <=? 4294967294)%N then Some n else None
           | None => None
           end
  end.

Definition is_array_index (key : string) : bool :=
  match array_index key with Some _ => true | None => false end.

Definition index_of (key : string) : Z :=
  match array_index key with Some n => Z.of_N n | None => 0 end.

Section PlainObject.

Variable V : Type.

(** The own properties of an object created by [{}], in creation order. *)
Definition JsObject : Type := list (string * V).

Fixpoint own_property (obj : JsObject) (key : string) : option V :=
  match obj with
  | [] => None
  | (k, v) :: rest => if String.eqb k key then Some v else own_property rest key
  end.

(** The outcome of reading [obj[key]]: an own property, a member inherited
    from [Object.prototype], or [undefined]. *)
Inductive lookup : Type :=
| Own (v : V)
| Inherited
| Undefined.

Definition get_property (obj : JsObject) (key : string) : lookup :=
  match own_property obj key with
  | Some v => Own v
  | None => if inherited key then Inherited else Undefined
  end.

(** [obj[key] = v] for a [key] that is not inherited: an existing own
    property keeps its place, a new one is created last. *)
Fixpoint set_property (obj : JsObject) (key : string) (v : V) : JsObject :=
  match obj with
  | [] => [(key, v)]
  | (k, w) :: rest =>
      if String.eqb k key then (k, v) :: rest else (k, w) :: set_property rest key v
  end.

(** [Object.values(obj)]: array-index keys first, in ascending numeric order,
    then the other keys in creation order. *)
Definition Object_values (obj : JsObject) : list V :=
  map snd
    (Array_sort (fun a b => index_of (fst a) - index_of (fst b))
       (filter (fun kv => is_array_index (fst kv)) obj)
     ++ filter (fun kv => negb (is_array_index (fst kv))) obj).

End PlainObject.

Arguments Own {V} v.
Arguments Inherited {V}.
Arguments Undefined {V}.

(* ================================================================== *)
(** ** Business discovery: data *)

(** The [criteria] argument of [findBusinesses]. *)
Record Criteria : Type := mkCriteria {
  c_industry : option string;
  c_technology : option string;
  c_location : option string;
  c_company : option string;
  c_minStars : option Z;
  c_limit : option Z
}.

(** The condensed repository pushed at lines 222-228. *)
Record RepoBrief : Type := mkRepoBrief {
  rb_name : string;
  rb_description : option string;
  rb_language : option string;
  rb_stars : Z;
  rb_url : string
}.

(** An entry of [businesses]. The entry created at lines 214-218 defines
    [username], [type] and [repositories] only. *)
Record Business : Type := mkBusiness {
  b_username : string;
  b_name : option string;
  b_type : string;
  b_description : option string;
  b_location : option string;
  b_website : option string;
  b_url : option string;
  b_avatar_url : option string;
  b_public_repos : option Z;
  b_followers : option Z;
  b_following : option Z;
  b_created_at : option string;
  b_repositories : list RepoBrief
}.

Definition from_orgData (owner : string) (orgData : OrgData) : Business :=
  {| b_username := owner;
     b_name := od_name orgData;
     b_type := od_type orgData;
     b_description := od_bio orgData;
     b_location := od_location orgData;
     b_website := od_blog orgData;
     b_url := Some (od_html_url orgData);
     b_avatar_url := Some (od_avatar_url orgData);
     b_public_repos := Some (od_public_repos orgData);
     b_followers := Some (od_followers orgData);
     b_following := Some (od_following orgData);
     b_created_at := Some (od_created_at orgData);
     b_repositories := [] |}.

Definition basic_entry (owner : string) : Business :=
  {| b_username := owner;
     b_name := None;
     b_type := "unknown";
     b_description := None;
     b_location := None;
     b_website := None;
     b_url := None;
     b_avatar_url := None;
     b_public_repos := None;
     b_followers := None;
     b_following := None;
     b_created_at := None;
     b_repositories := [] |}.

Definition brief (repo : Repository) : RepoBrief :=
  {| rb_name := r_name repo;
     rb_description := r_description repo;
     rb_language := r_language repo;
     rb_stars := r_stars repo;
     rb_url := r_url repo |}.

Definition push_repository (b : Business) (x : RepoBrief) : Business :=
  {| b_username := b_username b;
     b_name := b_name b;
     b_type := b_type b;
     b_description := b_description b;
     b_location := b_location b;
     b_website := b_website b;
     b_url := b_url b;
     b_avatar_url := b_avatar_url b;
     b_public_repos := b_public_repos b;
     b_followers := b_followers b;
     b_following := b_following b;
     b_created_at := b_created_at b;
     b_repositories := b_repositories b ++ [x] |}.

(** The one-character string holding a double quote. *)
Definition dquote : string := String (ascii_of_nat 34) EmptyString.

(** A value interpolated in a template literal. *)
Definition template_string (v : option string) : string :=
  match v with Some s => s | None => "undefined" end.

Definition template_number (v : option Z) : string :=
  match v with Some n => number_to_string n | None => "undefined" end.

(** Lines 153-175: the clauses pushed on [queries]. *)
Definition build_queries (criteria : Criteria) : list string :=
  let queries := [] in
  let queries :=
    if truthy_string (c_industry criteria)
    then queries ++ [("topic:" ++ template_string (c_industry criteria))%string]
    else queries in
  let queries :=
    if truthy_string (c_technology criteria)
    then queries ++ [("language:" ++ template_string (c_technology criteria))%string]
    else queries in
  let queries :=
    if truthy_string (c_location criteria)
    then queries ++ [("location:" ++ dquote ++ template_string (c_location criteria) ++ dquote)%string]
    else queries in
  let queries :=
    if truthy_string (c_company criteria)
    then queries ++ [(template_string (c_company criteria) ++ " in:name,description")%string]
    else queries in
  let queries :=
    if truthy_number (c_minStars criteria)
    then queries ++ [("stars:>=" ++ template_number (c_minStars criteria))%string]
    else queries in
  if Nat.eqb (List.length queries) 0 then queries ++ ["type:org"] else queries.

(** Line 177: [queries.join(' ')]. *)
Definition build_query (criteria : Criteria) : string :=
  join " " (build_queries criteria).

(** Line 233: the predicate of the final [filter]. A missing [public_repos]
    compares false with 5. *)
Definition is_business (business : Business) : bool :=
  (String.eqb (b_type business) "Organization"
   || match b_public_repos business with
      | Some n => 5 <? n
      | None => false
      end)%bool.

(** Lines 235-236: the reduction over [repositories]. *)
Definition star_score (business : Business) : Z :=
  fold_left (fun sum repo => sum + rb_stars repo) (b_repositories business) 0.

(** Lines 234-238: the comparator of the final [sort]. *)
Definition by_stars_desc (a b : Business) : Z := star_score b - star_score a.

(** Lines 232-238. *)
Definition rank (businesses : JsObject Business) : list Business :=
  Array_sort by_stars_desc (filter is_business (Object_values businesses)).

(* ================================================================== *)
(** ** Repository analysis: data *)

(** [businessIndicators], lines 281-289, in the order of its keys. A falsy
    value of [hasTopics] that is not a boolean is recorded as [false]. *)
Record BusinessIndicators : Type := mkBusinessIndicators {
  hasLicense : bool;
  hasDescription : bool;
  hasWebsite : bool;
  highStars : bool;
  activeMaintenance : bool;
  hasTopics : bool;
  hasContributors : bool
}.

(** [Object.values(businessIndicators)]. *)
Definition indicator_values (ind : BusinessIndicators) : list bool :=
  [ hasLicense ind; hasDescription ind; hasWebsite ind; highStars ind;
    activeMaintenance ind; hasTopics ind; hasContributors ind ].

(** The [repository] member of the analysis, lines 303-315. *)
Record RepositoryInfo : Type := mkRepositoryInfo {
  info_name : string;
  info_description : option string;
  info_language : option string;
  info_stars : Z;
  info_forks : Z;
  info_issues : Z;
  info_topics : option (list string);
  info_license : option string;
  info_homepage : option string;
  info_created_at : string;
  info_updated_at : string
}.

(** The value [analyzeRepository] returns, lines 302-319. *)
Record Analysis : Type := mkAnalysis {
  a_repository : RepositoryInfo;
  a_businessIndicators : BusinessIndicators;
  a_keywordMatches : list string;
  a_businessScore : Z
}.

(** Lines 292-296. *)
Definition businessKeywords : list string :=
  [ "company"; "business"; "enterprise"; "commercial"; "product";
    "service"; "solution"; "platform"; "api"; "saas"; "startup";
    "corporation"; "inc"; "llc"; "ltd"; "gmbh" ].

(** Line 266. *)
Definition readmeFiles : list string := [ "README.rst"; "README.txt"; "README" ].

Definition day_ms : Z := 24 * 60 * 60 * 1000.

(** What [sinceDate] can hold at line 340. *)
Inductive since_value : Type :=
| ADate (t : Z)
| NotADate.

(* ================================================================== *)
(** ** Definitions used to state the properties *)

(** The owners whose profile was requested, in the order of the requests. *)
Definition profile_fetches (log : list request) : list string :=
  flat_map (fun req => match req with GetByUsername u => [u] | _ => [] end) log.

Definition clause_when (condition : bool) (clause : string) : list string :=
  if condition then [clause] else [].

Definition present {A} (v : option A) : bool :=
  match v with Some _ => true | None => false end.

(** The clauses of the keys selected by [has]: [has] is [present] for the
    reading in which a key counts as soon as the object has it, and
    truthiness for the reading in which its value must be truthy. *)
Definition clauses_of (has_string : option string -> bool) (has_number : option Z -> bool)
    (criteria : Criteria) : list string :=
  clause_when (has_string (c_industry criteria))
    ("topic:" ++ template_string (c_industry criteria))%string
  ++ clause_when (has_string (c_technology criteria))
       ("language:" ++ template_string (c_technology criteria))%string
  ++ clause_when (has_string (c_location criteria))
       ("location:" ++ dquote ++ template_string (c_location criteria) ++ dquote)%string
  ++ clause_when (has_string (c_company criteria))
       (template_string (c_company criteria) ++ " in:name,description")%string
  ++ clause_when (has_number (c_minStars criteria))
       ("stars:>=" ++ template_number (c_minStars criteria))%string.

Definition or_default (clauses : list string) : list string :=
  match clauses with
  | [] => ["type:org"]
  | _ => clauses
  end.

(** The query as the specification words it: every present key contributes
    its clause. *)
Definition spec_build_query (criteria : Criteria) : string :=
  join " " (or_default (clauses_of present present criteria)).

(** Visiting an entry leaves [files] as it is or throws. *)
Definition visit_keeps (it : item) : Prop :=
  forall owner repo path ref extensions files,
    visit owner repo path ref extensions it files = Ok files
    \/ exists e, visit owner repo path ref extensions it files = Throw e.

(** The star counts of the repositories a profile has collected, added up
    one repository after the other. *)
Fixpoint sum_stars (repositories : list RepoBrief) : Z :=
  match repositories with
  | [] => 0
  | repo :: rest => rb_stars repo + sum_stars rest
  end.

Definition total_stars (p : Business) : Z := sum_stars (b_repositories p).

(** The order of a list sorted by a key, largest first. *)
Definition descending {A} (key : A -> Z) : A -> A -> Prop :=
  fun a b => key b <= key a.

(** A client that answers every search with [answer] and is [o] otherwise. *)
Definition with_search (o : Octokit) (answer : result (list RepoItem)) : Octokit :=
  {| repos_getContent := repos_getContent o;
     repos_get := repos_get o;
     search_repos := fun _ => answer;
     users_getByUsername := users_getByUsername o |}.

(* ================================================================== *)
(** ** Sample inputs *)

(** A base64 decoder for the standard alphabet: characters outside the
    alphabet are skipped and decoding stops at the padding. It stands for
    [Buffer.from(s, 'base64').toString('utf8')] in the sample runs, whose
    payloads are ASCII text. *)
Definition base64_value (c : ascii) : option N :=
  let n := N_of_ascii c in
  if ((65 <=? n) && (n <=? 90))%N then Some (n - 65)%N
  else if ((97 <=? n) && (n <=? 122))%N then Some (n - 71)%N
  else if ((48 <=? n) && (n <=? 57))%N then Some (n + 4)%N
  else if (n =? 43)%N then Some 62%N
  else if (n =? 47)%N then Some 63%N
  else None.

Fixpoint base64_values (s : string) : list N :=
  match s with
  | EmptyString => []
  | String c rest =>
      if Ascii.eqb c "="%char then []
      else match base64_value c with
           | Some v => v :: base64_values rest
           | None => base64_values rest
           end
  end.

Fixpoint base64_bytes (vs : list N) : string :=
  match vs with
  | a :: b :: c :: d :: rest =>
      let n := (((a * 64 + b) * 64 + c) * 64 + d)%N in
      String (ascii_of_N (n / 65536))
        (String (ascii_of_N ((n / 256) mod 256))
           (String (ascii_of_N (n mod 256)) (base64_bytes rest)))
  | [a; b; c] =>
      let n := ((a * 64 + b) * 64 + c)%N in
      String (ascii_of_N (n / 1024)) (String (ascii_of_N ((n / 4) mod 256)) EmptyString)
  | [a; b] => String (ascii_of_N ((a * 64 + b) / 16)) EmptyString
  | _ => EmptyString
  end.

Definition base64_decode (s : string) : string := base64_bytes (base64_values s).

Definition not_found {A} : result A := Throw (HttpError 404 "Not Found").

Definition no_criteria : Criteria :=
  {| c_industry := None; c_technology := None; c_location := None;
     c_company := None; c_minStars := None; c_limit := None |}.

Definition search_item (id : Z) (owner name : string) (stars : Z) : RepoItem :=
  {| ri_id := id;
     ri_name := name;
     ri_full_name := (owner ++ "/" ++ name)%string;
     ri_owner := Some owner;
     ri_description := None;
     ri_html_url := ("https://github.example/" ++ owner ++ "/" ++ name)%string;
     ri_clone_url := ("https://github.example/" ++ owner ++ "/" ++ name ++ ".git")%string;
     ri_language := Some "Go";
     ri_stargazers_count := stars;
     ri_forks_count := 0;
     ri_open_issues_count := 0;
     ri_topics := None;
     ri_created_at := "2023-01-01T00:00:00Z";
     ri_updated_at := "2024-05-01T00:00:00Z";
     ri_license := None |}.

Definition organization (login : string) : OrgData :=
  {| od_name := Some login;
     od_type := "Organization";
     od_bio := None;
     od_location := None;
     od_blog := None;
     od_html_url := ("https://github.example/" ++ login)%string;
     od_avatar_url := ("https://avatars.example/" ++ login)%string;
     od_public_repos := 12;
     od_followers := 3;
     od_following := 0;
     od_created_at := "2020-01-01T00:00:00Z" |}.

Definition shop_data : RepoData :=
  {| rd_full_name := "acme/shop";
     rd_description := Some "Online shop";
     rd_language := Some "Go";
     rd_stargazers_count := 250;
     rd_forks_count := 4;
     rd_open_issues_count := 7;
     rd_topics := Some ["shop"];
     rd_license := Some "MIT License";
     rd_homepage := None;
     rd_created_at := "2023-01-01T00:00:00Z";
     rd_updated_at := "2024-05-01T00:00:00Z" |}.

Definition readme_payload (name content : string) : FilePayload :=
  {| fp_name := name;
     fp_path := name;
     fp_size := Z.of_nat (String.length content);
     fp_encoding := Some "base64";
     fp_content := Some content;
     fp_sha := "3b18e512dba79e4c8300dd08aeb37f8e728b8dad";
     fp_download_url := Some ("https://raw.example/acme/shop/main/" ++ name)%string |}.

Definition demo_items : list RepoItem :=
  [ search_item 1 "globex" "reactor" 70;
    search_item 2 "acme" "shop" 50;
    search_item 3 "acme" "anvil" 40 ].

(** The repositories [searchRepositories] makes of [demo_items]. *)
Definition demo_repositories : list Repository :=
  match map_result to_repository demo_items with
  | Ok repositories => repositories
  | Throw _ => []
  end.

(** A client: the search finds three repositories of two owners; the lookup
    of the owner [globex] is rejected; [acme/shop] has a [README.md]. *)
Definition octokit_demo : Octokit :=
  {| repos_getContent := fun owner repo path ref =>
       if String.eqb path "README.md"
       then Ok (readme_payload "README.md"
                  "V2UgYXJlIGEgU2FhUyBjb21wYW55IHByb3ZpZGluZyBhbiBlbnRlcnByaXNlIHBsYXRmb3Jt")
       else not_found;
     repos_get := fun owner repo => Ok shop_data;
     search_repos := fun _ => Ok demo_items;
     users_getByUsername := fun username =>
       if String.eqb username "acme" then Ok (organization "acme") else not_found |}.

(** A client for a repository that has no [README.md] and has a
    [README.rst]. *)
Definition octokit_rst : Octokit :=
  {| repos_getContent := fun owner repo path ref =>
       if String.eqb path "README.rst"
       then Ok (readme_payload "README.rst"
                  "QWNtZSBJbmM6IHRoZSBjb21tZXJjaWFsIHBsYXRmb3JtIG9mIG91ciBjb21wYW55LiBQbGF0Zm9ybSBkb2NzIGZvbGxvdy4=")
       else not_found;
     repos_get := fun owner repo => Ok shop_data;
     search_repos := fun _ => Ok [];
     users_getByUsername := fun _ => not_found |}.

(** The evaluation time of the sample runs (2024-06-01T00:00:00Z) and the
    time values of the timestamps they use. *)
Definition sample_now : Z := 1717200000000.

Definition sample_parse (s : string) : option Z :=
  if String.eqb s "2024-05-01T00:00:00Z" then Some 1714521600000
  else if String.eqb s "2023-01-01T00:00:00Z" then Some 1672531200000
  else None.

(** [toISOString] for the three window starts of [sample_now]. *)
Definition sample_toISOString (t : Z) : string :=
  if t =? 1717113600000 then "2024-05-31T00:00:00.000Z"
  else if t =? 1716595200000 then "2024-05-25T00:00:00.000Z"
  else if t =? 1714608000000 then "2024-05-02T00:00:00.000Z"
  else "1970-01-01T00:00:00.000Z".

(** A client whose search finds one repository for each of four
    organizations, two of them with an all-digit login. *)
Definition octokit_orgs : Octokit :=
  {| repos_getContent := fun _ _ _ _ => not_found;
     repos_get := fun _ _ => not_found;
     search_repos := fun _ =>
       Ok [ search_item 1 "zeta" "z" 10;
            search_item 2 "42" "answer" 10;
            search_item 3 "alpha" "a" 30;
            search_item 4 "7" "seven" 10 ];
     users_getByUsername := fun username => Ok (organization username) |}.

(** A client whose search finds a repository of the account named
    [constructor] after one of [acme]. *)
Definition octokit_constructor : Octokit :=
  {| repos_getContent := fun _ _ _ _ => not_found;
     repos_get := fun _ _ => not_found;
     search_repos := fun _ =>
       Ok [ search_item 1 "acme" "shop" 50;
            search_item 2 "constructor" "builder" 40 ];
     users_getByUsername := fun username => Ok (organization username) |}.

(** The criteria [{minStars: 0}]. *)
Definition zero_stars : Criteria :=
  {| c_industry := None; c_technology := None; c_location := None;
     c_company := None; c_minStars := Some 0; c_limit := None |}.

(** The analysis of [acme/shop] with the client [octokit_demo] at
    [sample_now]. *)
Definition shop_analysis : Analysis :=
  {| a_repository :=
       {| info_name := "acme/shop";
          info_description := Some "Online shop";
          info_language := Some "Go";
          info_stars := 250;
          info_forks := 4;
          info_issues := 7;
          info_topics := Some ["shop"];
          info_license := Some "MIT License";
          info_homepage := None;
          info_created_at := "2023-01-01T00:00:00Z";
          info_updated_at := "2024-05-01T00:00:00Z" |};
     a_businessIndicators :=
       {| hasLicense := true;
          hasDescription := true;
          hasWebsite := false;
          highStars := true;
          activeMaintenance := true;
          hasTopics := true;
          hasContributors := false |};
     a_keywordMatches := ["company"; "enterprise"; "platform"; "saas"];
     a_businessScore := 9 |}.

Section Reader.

(** The client held in [this.octokit]. *)
Variable octokit : Octokit.

(** [Buffer.from(s, 'base64').toString('utf8')]: total on strings. *)
Variable Buffer_base64_utf8 : string -> string.

(** [Date.now()], in milliseconds, at the time of the call;
    [new Date(t).toISOString()] for a time value [t];
    the time value of [new Date(s)] for a timestamp [s], [None] when [s] does
    not parse (an invalid date compares false with every date). *)
Variable Date_now : Z.
Variable Date_toISOString : Z -> string.
Variable Date_parse : string -> option Z.

(** ** ContentFetcher: [fetchRepoFile], lines 72-103 *)
Definition fetchRepoFile (owner repo filePath ref : string) : M (option FileContent) :=
  try_catch
    (file <- await (GetContent owner repo filePath ref)
                   (repos_getContent octokit owner repo filePath ref) ;;
     content <-
       (if option_string_eqb (fp_encoding file) "base64"
        then match fp_content file with
             | Some c => ret (Some (Buffer_base64_utf8 c))
             | None => throw (TypeError "The first argument must be of type string")
             end
        else ret (fp_content file)) ;;
     ret (Some {| fc_name := fp_name file;
                  fc_path := fp_path file;
                  fc_size := fp_size file;
                  fc_content := content;
                  fc_encoding := fp_encoding file;
                  fc_sha := fp_sha file;
                  fc_download_url := fp_download_url file |}))
    (fun _ => ret None).

(** ** [searchRepositories], lines 111-144 *)
Definition searchRepositories (query : string) (options : Options) : M (list Repository) :=
  try_catch
    (let searchOptions :=
       {| so_q := query;
          so_sort := or_string (opt_sort options) "stars";
          so_order := or_string (opt_order options) "desc";
          so_per_page := or_number (opt_per_page options) 30;
          so_page := or_number (opt_page options) 1 |} in
     items <- await (SearchRepos searchOptions) (search_repos octokit searchOptions) ;;
     lift (map_result to_repository items))
    (fun _ => ret []).

(** ** BusinessAggregator: [findBusinesses], lines 151-245 *)

(** Line 222: [businesses[owner].repositories.push(x)]. An inherited member
    has no [repositories], so the call throws. *)
Definition push_to_owner (businesses : JsObject Business) (owner : string)
    (x : RepoBrief) : M (JsObject Business) :=
  match get_property businesses owner with
  | Own b => ret (set_property businesses owner (push_repository b x))
  | Inherited | Undefined =>
      throw (TypeError "Cannot read properties of undefined (reading 'push')")
  end.

(** Lines 188-228: the body of the loop over [repositories]. *)
Definition group_repo (businesses : JsObject Business) (repo : Repository)
    : M (JsObject Business) :=
  let owner := r_owner repo in
  businesses <-
    match get_property businesses owner with
    | Undefined =>
        try_catch
          (orgData <- await (GetByUsername owner) (users_getByUsername octokit owner) ;;
           ret (set_property businesses owner (from_orgData owner orgData)))
          (fun _ => ret (set_property businesses owner (basic_entry owner)))
    | Own _ | Inherited => ret businesses
    end ;;
  push_to_owner businesses owner (brief repo).

(** Lines 185-229. *)
Definition group_by_owner (repositories : list Repository) : M (JsObject Business) :=
  for_of repositories group_repo [].

(** Lines 177-182: the search issued by [findBusinesses]. *)
Definition search_businesses (criteria : Criteria) : M (list Repository) :=
  searchRepositories (build_query criteria)
    {| opt_sort := Some "stars";
       opt_order := Some "desc";
       opt_per_page := Some (or_number (c_limit criteria) 50);
       opt_page := None |}.

Definition findBusinesses (criteria : Criteria) : M (list Business) :=
  try_catch
    (repositories <- search_businesses criteria ;;
     businesses <- group_by_owner repositories ;;
     ret (rank businesses))
    (fun _ => ret []).

(** ** RepoAnalyzer: [analyzeRepository], lines 253-324 *)

(** Lines 267-277: the loop of the [catch] block. *)
Fixpoint try_readmeFiles (owner repo : string) (filenames : list string)
    (readmeContent : option string) : M (option string) :=
  match filenames with
  | [] => ret readmeContent
  | filename :: rest =>
      found <-
        try_catch
          (readme <- fetchRepoFile owner repo filename "main" ;;
           ret (match readme with
                | Some file => Some (fc_content file)
                | None => None
                end))
          (fun _ => ret None) ;;
      match found with
      | Some content => ret content
      | None => try_readmeFiles owner repo rest readmeContent
      end
  end.

(** Lines 260-278. The text is [None] when [readme.content] is undefined. *)
Definition read_readme (owner repo : string) : M (option string) :=
  try_catch
    (readme <- fetchRepoFile owner repo "README.md" "main" ;;
     ret (match readme with
          | Some file => fc_content file
          | None => Some ""
          end))
    (fun _ => try_readmeFiles owner repo readmeFiles (Some "")).

(** Lines 281-289. *)
Definition businessIndicators (repoData : RepoData) : BusinessIndicators :=
  {| hasLicense := match rd_license repoData with Some _ => true | None => false end;
     hasDescription := truthy_string (rd_description repoData);
     hasWebsite := truthy_string (rd_homepage repoData);
     highStars := 100 <? rd_stargazers_count repoData;
     activeMaintenance :=
       match Date_parse (rd_updated_at repoData) with
       | Some t => Date_now - 90 * 24 * 60 * 60 * 1000 <? t
       | None => false
       end;
     hasTopics :=
       match rd_topics repoData with
       | Some topics => 0 <? Z.of_nat (List.length topics)
       | None => false
       end;
     hasContributors := 10 <? rd_forks_count repoData |}.

(** Lines 298-300. Calling [toLowerCase] on an undefined text throws. *)
Definition keywordMatches (readmeContent : option string) : result (list string) :=
  match readmeContent with
  | Some text => Ok (filter (fun keyword => includes (toLowerCase text) keyword) businessKeywords)
  | None => Throw (TypeError "Cannot read properties of undefined (reading 'toLowerCase')")
  end.

(** Line 318. *)
Definition businessScore (ind : BusinessIndicators) (matches : list string) : Z :=
  Z.of_nat (List.length (filter (fun v : bool => v) (indicator_values ind)))
  + Z.of_nat (List.length matches).

Definition analyzeRepository (owner repo : string) : M (option Analysis) :=
  try_catch
    (repoData <- await (ReposGet owner repo) (repos_get octokit owner repo) ;;
     readmeContent <- read_readme owner repo ;;
     let indicators := businessIndicators repoData in
     matches <- lift (keywordMatches readmeContent) ;;
     ret (Some
       {| a_repository :=
            {| info_name := rd_full_name repoData;
               info_description := rd_description repoData;
               info_language := rd_language repoData;
               info_stars := rd_stargazers_count repoData;
               info_forks := rd_forks_count repoData;
               info_issues := rd_open_issues_count repoData;
               info_topics := rd_topics repoData;
               info_license := rd_license repoData;
               info_homepage := rd_homepage repoData;
               info_created_at := rd_created_at repoData;
               info_updated_at := rd_updated_at repoData |};
          a_businessIndicators := indicators;
          a_keywordMatches := matches;
          a_businessScore := businessScore indicators matches |}))
    (fun _ => ret None).

(** ** TrendFinder: [getTrendingRepos], lines 332-357 *)

(** Lines 334-338. *)
Definition dateMap : JsObject Z :=
  [ ("daily", Date_now - 24 * 60 * 60 * 1000);
    ("weekly", Date_now - 7 * 24 * 60 * 60 * 1000);
    ("monthly", Date_now - 30 * 24 * 60 * 60 * 1000) ].

(** Line 340: [dateMap[since] || dateMap.weekly]. Every value [dateMap[since]]
    can yield other than [undefined] is an object, hence truthy. *)
Definition sinceDate (since : string) : since_value :=
  match get_property dateMap since with
  | Own t => ADate t
  | Inherited => NotADate
  | Undefined => ADate (Date_now - 7 * 24 * 60 * 60 * 1000)
  end.

(** Line 341: [sinceDate.toISOString().split('T')[0]]. *)
Definition dateString (d : since_value) : result string :=
  match d with
  | ADate t => Ok (split_first "T"%char (Date_toISOString t))
  | NotADate => Throw (TypeError "sinceDate.toISOString is not a function")
  end.

(** Lines 343-346. *)
Definition trend_query (date : string) (language : string) : string :=
  let query := ("created:>" ++ date)%string in
  if negb (String.eqb language "") then (query ++ " language:" ++ language)%string
  else query.

Definition getTrendingRepos (language since : string) : M (list Repository) :=
  try_catch
    (date <- lift (dateString (sinceDate since)) ;;
     searchRepositories (trend_query date language)
       {| opt_sort := Some "stars";
          opt_order := Some "desc";
          opt_per_page := Some 30;
          opt_page := None |})
    (fun _ => ret []).

(** ** Definitions used to state the properties of a run *)

(** Lines 232-233 in a run of [findBusinesses]: the profiles that pass the
    filter, in the order of [Object.values], before they are sorted; no
    profile when the run throws before that line. *)
Definition candidates (criteria : Criteria) (log : list request) : list Business :=
  match (repositories <- search_businesses criteria ;; group_by_owner repositories) log with
  | (Ok businesses, _) => filter is_business (Object_values businesses)
  | (Throw _, _) => []
  end.

(** The entry lines 191-219 create for [owner], before any repository is
    pushed. *)
Definition fresh_entry (owner : string) : Business :=
  match users_getByUsername octokit owner with
  | Ok orgData => from_orgData owner orgData
  | Throw _ => basic_entry owner
  end.

(** An entry of [businesses] agrees with the answer of the profile lookup for
    its key. *)
Definition entry_ok (kv : string * Business) : Prop :=
  b_username (snd kv) = fst kv
  /\ match users_getByUsername octokit (fst kv) with
     | Ok orgData =>
         b_type (snd kv) = od_type orgData
         /\ b_public_repos (snd kv) = Some (od_public_repos orgData)
     | Throw _ =>
         b_type (snd kv) = "unknown" /\ b_public_repos (snd kv) = None
     end.

(** Every profile lookup of the log is for an owner that has an entry. *)
Definition fetched_are_known (businesses : JsObject Business) (log : list request) : Prop :=
  forall u, In u (profile_fetches log) -> own_property businesses u <> None.

(** Every entry of [before] is still an entry of [after], with at least the
    repositories it had. *)
Definition grows (before after : JsObject Business) : Prop :=
  forall k b, own_property before k = Some b ->
    exists b', own_property after k = Some b'
               /\ incl (b_repositories b) (b_repositories b').

(** Every repository of the list is held by the entry of its owner. *)
Definition all_collected (repositories : list Repository)
    (businesses : JsObject Business) : Prop :=
  forall repo, In repo repositories ->
    exists b, own_property businesses (r_owner repo) = Some b
              /\ In (brief repo) (b_repositories b).

(** The number of days of the window [getTrendingRepos] uses for [since]. *)
Definition window_days (since : string) : Z :=
  if String.eqb since "daily" then 1
  else if String.eqb since "monthly" then 30
  else 7.

(** README retrieval as the specification words it: the primary file name
    first, then the fallback names in their order, stopping at the first file
    found; the empty text when none is found. *)
Fixpoint spec_first_readme (owner repo : string) (filenames : list string) : option string :=
  match filenames with
  | [] => Some ""
  | filename :: rest =>
      match fst (fetchRepoFile owner repo filename "main" []) with
      | Ok (Some file) => fc_content file
      | _ => spec_first_readme owner repo rest
      end
  end.

Definition spec_readme (owner repo : string) : option string :=
  spec_first_readme owner repo ("README.md" :: readmeFiles).

(* ================================================================== *)
(** ** Properties of the operations *)

Lemma Ok_inj {A} (a b : A) : Ok a = Ok b -> a = b.
Proof. now intros [= ->]. Qed.

Lemma try_catch_ret {A} (body : M A) (a : A) (log : list request) :
  exists v log', try_catch body (fun _ => ret a) log = (Ok v, log').
Proof.
  unfold try_catch, ret.
  destruct (body log) as [[v | e] log']; eauto.
Qed.

(** Induction over a tree snapshot, with the listing of a directory covered
    entry by entry. *)
Lemma tree_ind (P : item -> Prop) (Q : response -> Prop)
    (Hfile : forall n p s u, P (FileItem n p s u))
    (Hdir : forall n p c, Q c -> P (DirItem n p c))
    (Hother : forall t n p, P (OtherItem t n p))
    (Hrej : forall e, Q (Rejects e))
    (Harr : forall l, Forall P l -> Q (DataArray l))
    (Hobj : forall i, P i -> Q (DataObject i)) :
  forall r, Q r.
Proof.
  fix IH 1.
  intros [e | l | i].
  - apply Hrej.
  - apply Harr.
    induction l as [| it l IHl]; constructor; [| exact IHl].
    destruct it as [n p s u | n p c | t n p].
    + apply Hfile.
    + apply Hdir, IH.
    + apply Hother.
  - apply Hobj.
    destruct i as [n p s u | n p c | t n p].
    + apply Hfile.
    + apply Hdir, IH.
    + apply Hother.
Qed.

(** Whatever the snapshot and the filter, the listing is empty: the first
    file entry met at a level throws at line 39, and the [catch] of that
    level returns the empty array. *)
Lemma listRepoFiles_is_empty (r : response) :
  forall owner repo path ref extensions,
    listRepoFiles owner repo path ref extensions r = Ok [].
Proof.
  revert r.
  apply (@tree_ind visit_keeps
           (fun r => forall owner repo path ref extensions,
                listRepoFiles owner repo path ref extensions r = Ok [])).
  - intros n p s u owner repo path ref extensions files. right. simpl. eauto.
  - intros n p c IHc owner repo path ref extensions files. left.
    simpl. rewrite IHc. now rewrite app_nil_r.
  - intros t n p owner repo path ref extensions files. now left.
  - reflexivity.
  - intros l Hl owner repo path ref extensions. simpl.
    match goal with
    | |- try_catch_pure (?loop l []) _ = _ =>
        assert (Hloop : forall files,
                   loop l files = Ok files \/ exists e, loop l files = Throw e)
    end.
    { induction Hl as [| it l Hit _ IHl]; intros files.
      - now left.
      - destruct (Hit owner repo path ref extensions files) as [Hv | [e Hv]];
          rewrite Hv; [apply IHl | eauto]. }
    destruct (Hloop []) as [H | [e H]]; rewrite H; reflexivity.
  - intros i Hi owner repo path ref extensions. simpl.
    destruct (Hi owner repo path ref extensions []) as [H | [e H]];
      rewrite H; reflexivity.
Qed.

(** *** ContentFetcher *)

Lemma fetchRepoFile_returns (owner repo filePath ref : string) (log : list request) :
  exists v,
    fetchRepoFile owner repo filePath ref log
    = (Ok v, log ++ [GetContent owner repo filePath ref]).
Proof.
  unfold fetchRepoFile, try_catch, bind, await, ret, throw.
  destruct (repos_getContent octokit owner repo filePath ref) as [file | e]; eauto.
  destruct (option_string_eqb (fp_encoding file) "base64"); eauto.
  destruct (fp_content file); eauto.
Qed.


(** *** RepoAnalyzer *)

(** The README text of a run comes from the single request for [README.md]:
    [fetchRepoFile] returns instead of throwing, so the [catch] block of lines
    264-278 is not entered and no other file name is requested. *)
Lemma read_readme_single_fetch (owner repo : string) (log : list request) :
  exists v,
    fetchRepoFile owner repo "README.md" "main" log
    = (Ok v, log ++ [GetContent owner repo "README.md" "main"])
    /\ read_readme owner repo log
       = (Ok (match v with Some file => fc_content file | None => Some "" end),
          log ++ [GetContent owner repo "README.md" "main"]).
Proof.
  destruct (fetchRepoFile_returns owner repo "README.md" "main" log) as [v Hv].
  exists v. split; [exact Hv |].
  unfold read_readme, try_catch, bind, ret. now rewrite Hv.
Qed.

Lemma businessKeywords_NoDup : NoDup businessKeywords.
Proof.
  replace businessKeywords with (nodup string_dec businessKeywords) by reflexivity.
  apply NoDup_nodup.
Qed.

Lemma filter_length_bound {A} (f : A -> bool) (l : list A) :
  (List.length (filter f l) <= List.length l)%nat.
Proof.
  induction l as [| x l IH]; simpl; [lia |].
  destruct (f x); simpl; lia.
Qed.

Lemma analyzeRepository_some (owner repo : string) (log log' : list request) (a : Analysis) :
  analyzeRepository owner repo log = (Ok (Some a), log') ->
  exists repoData text,
    repos_get octokit owner repo = Ok repoData
    /\ a_businessIndicators a = businessIndicators repoData
    /\ a_keywordMatches a
       = filter (fun keyword => includes (toLowerCase text) keyword) businessKeywords
    /\ a_businessScore a = businessScore (a_businessIndicators a) (a_keywordMatches a).
Proof.
  unfold analyzeRepository, try_catch, bind, await, lift, ret.
  destruct (repos_get octokit owner repo) as [repoData | e]; [| discriminate].
  destruct (read_readme_single_fetch owner repo (log ++ [ReposGet owner repo]))
    as (v & _ & Hr).
  rewrite Hr. clear Hr.
  generalize (match v with Some file => fc_content file | None => Some "" end).
  intros readmeContent.
  destruct (keywordMatches readmeContent) as [matches | e] eqn:Hk; [| discriminate].
  remember (businessIndicators repoData) as indicators eqn:Hind.
  intros H. injection H as Ha _. subst a.
  destruct readmeContent as [text |]; [| discriminate].
  exists repoData, text.
  cbn [a_businessIndicators a_keywordMatches a_businessScore].
  repeat split; try reflexivity; try assumption.
  symmetry. exact (Ok_inj Hk).
Qed.

(** C6. For every analysis returned, [businessScore] is the number of true
    indicators plus the number of matched keywords, it lies between 0 and the
    number of indicators plus the length of the keyword list, and the matched
    keywords are keywords of the fixed list, each listed once. *)
Theorem businessScore_counts
    (owner repo : string) (log log' : list request) (a : Analysis) :
  analyzeRepository owner repo log = (Ok (Some a), log') ->
  a_businessScore a
  = Z.of_nat (count_occ bool_dec (indicator_values (a_businessIndicators a)) true)
    + Z.of_nat (List.length (a_keywordMatches a))
  /\ 0 <= a_businessScore a
     <= Z.of_nat (List.length (indicator_values (a_businessIndicators a)))
        + Z.of_nat (List.length businessKeywords)
  /\ NoDup (a_keywordMatches a)
  /\ incl (a_keywordMatches a) businessKeywords.
Proof.
  intros H.
  destruct (analyzeRepository_some _ _ _ H) as (repoData & text & _ & _ & Hm & Hs).
  assert (Hcount : forall l : list bool,
             List.length (filter (fun v : bool => v) l) = count_occ bool_dec l true).
  { induction l as [| [|] l IH]; simpl; auto. }
  rewrite Hs. unfold businessScore. rewrite Hcount.
  split; [reflexivity |].
  split.
  - rewrite <- Hcount.
    pose proof (filter_length_bound (fun v : bool => v)
                  (indicator_values (a_businessIndicators a))) as Hi.
    assert (Hk : (List.length (a_keywordMatches a) <= List.length businessKeywords)%nat)
      by (rewrite Hm; apply filter_length_bound).
    clear - Hi Hk. lia.
  - rewrite Hm. split.
    + apply NoDup_filter, businessKeywords_NoDup.
    + intros k Hk. apply filter_In in Hk. exact (proj1 Hk).
Qed.

(** *** Sorting *)

Lemma sort_insert_perm {A} (compareFn : A -> A -> Z) (x : A) (l : list A) :
  Permutation (sort_insert compareFn x l) (x :: l).
Proof.
  induction l as [| y l IH]; simpl; [reflexivity |].
  destruct (0 <? compareFn x y); [| reflexivity].
  rewrite IH. apply perm_swap.
Qed.

Lemma Array_sort_perm {A} (compareFn : A -> A -> Z) (l : list A) :
  Permutation (Array_sort compareFn l) l.
Proof.
  induction l as [| x l IH]; simpl; [reflexivity |].
  rewrite sort_insert_perm. now constructor.
Qed.

Lemma sort_insert_descending {A} (key : A -> Z) (x : A) (l : list A) :
  StronglySorted (descending key) l ->
  StronglySorted (descending key) (sort_insert (fun a b => key b - key a) x l).
Proof.
  induction 1 as [| y l Hl IH Hy]; simpl.
  - constructor; constructor.
  - destruct (Z.ltb_spec 0 (key y - key x)) as [Hlt | Hge].
    + constructor; [exact IH |].
      apply Forall_forall. intros z Hz.
      apply (Permutation_in _ (sort_insert_perm _ x l)) in Hz.
      destruct Hz as [<- | Hz].
      * unfold descending. lia.
      * rewrite Forall_forall in Hy. now apply Hy.
    + constructor; [now constructor |].
      constructor; [unfold descending; lia |].
      apply Forall_forall. intros z Hz.
      rewrite Forall_forall in Hy. specialize (Hy z Hz).
      unfold descending in *. lia.
Qed.

Lemma Array_sort_descending {A} (key : A -> Z) (l : list A) :
  StronglySorted (descending key) (Array_sort (fun a b => key b - key a) l).
Proof.
  induction l as [| x l IH]; simpl; [constructor |].
  now apply sort_insert_descending.
Qed.

Lemma sort_insert_stable {A} (key : A -> Z) (s : Z) (x : A) (l : list A) :
  filter (fun a => key a =? s) (sort_insert (fun a b => key b - key a) x l)
  = filter (fun a => key a =? s) (x :: l).
Proof.
  induction l as [| y l IH]; [reflexivity |].
  simpl sort_insert.
  destruct (Z.ltb_spec 0 (key y - key x)) as [Hlt | Hge]; [| reflexivity].
  simpl in *. rewrite IH.
  destruct (Z.eqb_spec (key x) s), (Z.eqb_spec (key y) s); try reflexivity; lia.
Qed.

Lemma Array_sort_stable {A} (key : A -> Z) (s : Z) (l : list A) :
  filter (fun a => key a =? s) (Array_sort (fun a b => key b - key a) l)
  = filter (fun a => key a =? s) l.
Proof.
  induction l as [| x l IH]; [reflexivity |].
  simpl Array_sort. rewrite sort_insert_stable. simpl. now rewrite IH.
Qed.

Lemma StronglySorted_nth {A} (R : A -> A -> Prop) (l : list A) :
  StronglySorted R l ->
  forall i j a b, (i < j)%nat -> nth_error l i = Some a -> nth_error l j = Some b -> R a b.
Proof.
  induction 1 as [| x l Hl IH Hx]; intros i j a b Hij Hi Hj.
  - destruct i; discriminate.
  - destruct j as [| j]; [lia |].
    destruct i as [| i]; simpl in *.
    + injection Hi as <-. rewrite Forall_forall in Hx.
      apply Hx. eapply nth_error_In; eauto.
    + apply (IH i j); auto. lia.
Qed.

(** *** Plain objects *)

Lemma own_property_set {V} (obj : JsObject V) (k k' : string) (v : V) :
  own_property (set_property obj k v) k'
  = if String.eqb k k' then Some v else own_property obj k'.
Proof.
  induction obj as [| [k0 w] obj IH]; simpl.
  - reflexivity.
  - destruct (String.eqb_spec k0 k) as [-> | Hk0]; simpl.
    + destruct (String.eqb k k'); reflexivity.
    + rewrite IH.
      destruct (String.eqb_spec k0 k'), (String.eqb_spec k k'); try reflexivity.
      congruence.
Qed.

Lemma own_property_In {V} (obj : JsObject V) (k : string) (v : V) :
  own_property obj k = Some v -> In (k, v) obj.
Proof.
  induction obj as [| [k0 w] obj IH]; simpl; [discriminate |].
  destruct (String.eqb_spec k0 k) as [-> | _].
  - intros [= ->]. now left.
  - intros H. right. now apply IH.
Qed.

Lemma set_property_Forall {V} (P : string * V -> Prop) (obj : JsObject V)
    (k : string) (v : V) :
  Forall P obj -> P (k, v) -> Forall P (set_property obj k v).
Proof.
  induction 1 as [| [k0 w] obj Hkw Hobj IH]; intros Hv; simpl.
  - now constructor.
  - destruct (String.eqb_spec k0 k) as [-> | _]; constructor; auto.
Qed.

Lemma Object_values_In {V} (obj : JsObject V) (v : V) :
  In v (Object_values obj) -> exists k, In (k, v) obj.
Proof.
  unfold Object_values. intros H.
  apply in_map_iff in H. destruct H as ([k w] & Hw & H). simpl in Hw. subst w.
  exists k. apply in_app_or in H. destruct H as [H | H].
  - apply (Permutation_in _ (Array_sort_perm _ _)) in H.
    apply filter_In in H. exact (proj1 H).
  - apply filter_In in H. exact (proj1 H).
Qed.

(** *** BusinessAggregator *)

Lemma searchRepositories_returns (query : string) (options : Options) (log : list request) :
  exists repositories searchOptions,
    searchRepositories query options log
    = (Ok repositories, log ++ [SearchRepos searchOptions]).
Proof.
  unfold searchRepositories, try_catch, bind, await, lift, ret.
  destruct (search_repos octokit _) as [items | e]; [| eauto].
  destruct (map_result to_repository items); eauto.
Qed.

(** One turn of the loop of lines 187-229, case by case. *)
Lemma group_repo_step (businesses : JsObject Business) (repo : Repository)
    (log : list request) :
  group_repo businesses repo log
  = match own_property businesses (r_owner repo) with
    | Some b =>
        (Ok (set_property businesses (r_owner repo) (push_repository b (brief repo))), log)
    | None =>
        if inherited (r_owner repo)
        then (Throw (TypeError "Cannot read properties of undefined (reading 'push')"), log)
        else (Ok (set_property
                    (set_property businesses (r_owner repo) (fresh_entry (r_owner repo)))
                    (r_owner repo)
                    (push_repository (fresh_entry (r_owner repo)) (brief repo))),
              log ++ [GetByUsername (r_owner repo)])
    end.
Proof.
  unfold group_repo, push_to_owner, get_property, fresh_entry,
    try_catch, bind, await, ret, throw.
  destruct (own_property businesses (r_owner repo)) as [b |] eqn:Hown.
  - now rewrite Hown.
  - destruct (inherited (r_owner repo)).
    + now rewrite Hown.
    + destruct (users_getByUsername octokit (r_owner repo)) as [orgData | e];
        rewrite own_property_set, String.eqb_refl; reflexivity.
Qed.

Lemma profile_fetches_app (log1 log2 : list request) :
  profile_fetches (log1 ++ log2) = profile_fetches log1 ++ profile_fetches log2.
Proof. apply flat_map_app. Qed.

Lemma NoDup_snoc {A} (l : list A) (x : A) :
  NoDup l -> ~ In x l -> NoDup (l ++ [x]).
Proof.
  intros Hl Hx. apply NoDup_rev in Hl.
  rewrite <- (rev_involutive (l ++ [x])). apply NoDup_rev.
  rewrite rev_app_distr. simpl. constructor; [| exact Hl].
  now rewrite <- in_rev.
Qed.

(** The loop never asks twice for the same owner. *)
Lemma group_by_owner_fetches (repositories : list Repository) :
  forall businesses log,
    NoDup (profile_fetches log) ->
    fetched_are_known businesses log ->
    NoDup (profile_fetches (snd (for_of repositories group_repo businesses log))).
Proof.
  induction repositories as [| repo rest IH]; intros businesses log Hnd Hknown.
  - exact Hnd.
  - simpl. unfold bind. rewrite group_repo_step.
    destruct (own_property businesses (r_owner repo)) as [b |] eqn:Hown.
    + apply IH; [exact Hnd |].
      intros u Hu. rewrite own_property_set.
      destruct (String.eqb (r_owner repo) u); [discriminate | now apply Hknown].
    + destruct (inherited (r_owner repo)); [exact Hnd |].
      apply IH.
      * rewrite profile_fetches_app. simpl. apply NoDup_snoc; [exact Hnd |].
        intros Hin. now apply (Hknown _ Hin).
      * intros u Hu. rewrite !own_property_set.
        destruct (String.eqb (r_owner repo) u) eqn:Heq; [discriminate |].
        rewrite profile_fetches_app in Hu. apply in_app_or in Hu.
        destruct Hu as [Hu | [<- | []]]; [now apply Hknown |].
        now rewrite String.eqb_refl in Heq.
Qed.

(** C3. In a run of [findBusinesses] the profile of an owner is requested at
    most once, whatever the search returns and however many of the found
    repositories the owner holds. *)
Theorem findBusinesses_fetches_owner_once (criteria : Criteria) (username : string) :
  (count_occ string_dec
     (profile_fetches (snd (findBusinesses criteria []))) username <= 1)%nat.
Proof.
  apply NoDup_count_occ.
  unfold findBusinesses, try_catch, bind, ret, search_businesses.
  destruct (searchRepositories_returns (build_query criteria)
              {| opt_sort := Some "stars"; opt_order := Some "desc";
                 opt_per_page := Some (or_number (c_limit criteria) 50);
                 opt_page := None |} [])
    as (repositories & searchOptions & Hsearch).
  rewrite Hsearch.
  pose proof (@group_by_owner_fetches repositories [] ([] ++ [SearchRepos searchOptions]))
    as Hloop.
  unfold group_by_owner.
  destruct (for_of repositories group_repo [] ([] ++ [SearchRepos searchOptions]))
    as [[businesses | e] log'];
    simpl in *; apply Hloop; try constructor; intros u [].
Qed.

Lemma push_repository_entry_ok (k : string) (b : Business) (x : RepoBrief) :
  entry_ok (k, b) -> entry_ok (k, push_repository b x).
Proof. unfold entry_ok. simpl. exact (fun H => H). Qed.

Lemma fresh_entry_ok (owner : string) : entry_ok (owner, fresh_entry owner).
Proof.
  unfold entry_ok, fresh_entry. simpl.
  destruct (users_getByUsername octokit owner); simpl; auto.
Qed.

Lemma grows_refl (businesses : JsObject Business) : grows businesses businesses.
Proof. intros k b H. exists b. split; [exact H | apply incl_refl]. Qed.

Lemma grows_trans (b1 b2 b3 : JsObject Business) :
  grows b1 b2 -> grows b2 b3 -> grows b1 b3.
Proof.
  intros H12 H23 k b H.
  destruct (H12 k b H) as (b' & H' & Hi').
  destruct (H23 k b' H') as (b'' & H'' & Hi'').
  exists b''. split; [exact H'' | eapply incl_tran; eauto].
Qed.

(** One turn of the loop for an owner that has an entry already or whose
    name is not inherited. *)
Lemma group_repo_ok (businesses : JsObject Business) (repo : Repository)
    (log : list request) :
  (own_property businesses (r_owner repo) = None -> inherited (r_owner repo) = false) ->
  Forall entry_ok businesses ->
  exists businesses' log',
    group_repo businesses repo log = (Ok businesses', log')
    /\ Forall entry_ok businesses'
    /\ grows businesses businesses'
    /\ all_collected [repo] businesses'.
Proof.
  intros Hinh Hok. rewrite group_repo_step.
  destruct (own_property businesses (r_owner repo)) as [b |] eqn:Hown.
  - eexists _, _. split; [reflexivity |]. repeat split.
    + apply set_property_Forall; [exact Hok |].
      apply push_repository_entry_ok.
      rewrite Forall_forall in Hok. apply Hok. now apply own_property_In.
    + intros k b0 H0. rewrite own_property_set.
      destruct (String.eqb_spec (r_owner repo) k) as [<- | _].
      * exists (push_repository b (brief repo)). split; [reflexivity |].
        rewrite Hown in H0. injection H0 as <-. simpl. apply incl_appl, incl_refl.
      * exists b0. split; [exact H0 | apply incl_refl].
    + intros r [<- | []]. rewrite own_property_set, String.eqb_refl.
      eexists. split; [reflexivity |]. simpl. apply in_or_app. right. now left.
  - rewrite (Hinh eq_refl).
    eexists _, _. split; [reflexivity |]. repeat split.
    + apply set_property_Forall; [apply set_property_Forall; [exact Hok |] |].
      * apply fresh_entry_ok.
      * apply push_repository_entry_ok, fresh_entry_ok.
    + intros k b0 H0. rewrite !own_property_set.
      destruct (String.eqb_spec (r_owner repo) k) as [<- | _]; [congruence |].
      exists b0. split; [exact H0 | apply incl_refl].
    + intros r [<- | []]. rewrite own_property_set, String.eqb_refl.
      eexists. split; [reflexivity |]. simpl. apply in_or_app. right. now left.
Qed.

(** The loop of lines 187-229: it throws only at an owner whose name is
    inherited; otherwise every repository is collected under its owner. *)
Lemma group_by_owner_inv (repositories : list Repository) :
  forall businesses log,
    Forall entry_ok businesses ->
    match fst (for_of repositories group_repo businesses log) with
    | Ok businesses' =>
        Forall entry_ok businesses'
        /\ grows businesses businesses'
        /\ all_collected repositories businesses'
    | Throw _ =>
        exists repo, In repo repositories /\ inherited (r_owner repo) = true
    end.
Proof.
  induction repositories as [| repo rest IH]; intros businesses log Hok.
  - simpl. repeat split; [exact Hok | apply grows_refl | intros r []].
  - simpl for_of. unfold bind.
    destruct (own_property businesses (r_owner repo)) as [b |] eqn:Hown;
      [| destruct (inherited (r_owner repo)) eqn:Hinh ].
    2: { rewrite group_repo_step, Hown, Hinh. simpl.
         exists repo. split; [now left | exact Hinh]. }
    all: destruct (@group_repo_ok businesses repo log) as
        (businesses1 & log1 & Hstep & Hok1 & Hgrow1 & Hcol1);
      [ congruence | exact Hok | ];
      rewrite Hstep; specialize (IH businesses1 log1 Hok1);
      destruct (fst (for_of rest group_repo businesses1 log1)) as [businesses' | e];
      [ destruct IH as (Hok' & Hgrow' & Hcol'); repeat split;
        [ exact Hok'
        | eapply grows_trans; eauto
        | intros r [<- | Hr];
          [ destruct (Hcol1 repo (or_introl eq_refl)) as (b1 & Hb1 & Hin1);
            destruct (Hgrow' _ _ Hb1) as (b' & Hb' & Hincl);
            exists b'; split; [exact Hb' | now apply Hincl]
          | now apply Hcol' ] ]
      | destruct IH as (r & Hr & Hinh'); exists r; split; [now right | exact Hinh'] ].
Qed.

(** What the final filter lets through comes from a successful lookup. *)
Lemma is_business_lookup_ok (kv : string * Business) :
  entry_ok kv -> is_business (snd kv) = true ->
  is_ok (users_getByUsername octokit (b_username (snd kv))) = true.
Proof.
  unfold entry_ok, is_business. intros [Hname Hlookup] Hb. rewrite Hname.
  destruct (users_getByUsername octokit (fst kv)); [reflexivity |].
  destruct Hlookup as [Ht Hp]. rewrite Ht, Hp in Hb. discriminate.
Qed.

Lemma rank_lookup_ok (businesses : JsObject Business) (b : Business) :
  Forall entry_ok businesses -> In b (rank businesses) ->
  is_ok (users_getByUsername octokit (b_username b)) = true.
Proof.
  intros Hok Hb. unfold rank in Hb.
  apply (Permutation_in _ (Array_sort_perm _ _)) in Hb.
  apply filter_In in Hb. destruct Hb as [Hb Hbus].
  apply Object_values_In in Hb. destruct Hb as [k Hk].
  rewrite Forall_forall in Hok.
  apply (@is_business_lookup_ok (k, b)); [now apply Hok | exact Hbus].
Qed.

(** C2, as amended. When no owner of the found repositories bears a name
    inherited from [Object.prototype], the grouping loop ends without
    throwing, whatever the profile lookups answer, and every repository is
    held by the entry of its owner in [businesses]; that entry has the type
    ["unknown"] when the lookup of the owner failed. The list
    [findBusinesses] returns holds only profiles whose lookup succeeded: the
    final filter removes the entries made at lines 214-218. *)
Theorem failed_lookup_keeps_entry (repositories : list Repository) (log : list request) :
  (forall repo, In repo repositories -> inherited (r_owner repo) = false) ->
  (exists businesses log',
      group_by_owner repositories log = (Ok businesses, log')
      /\ forall repo, In repo repositories ->
           exists b,
             own_property businesses (r_owner repo) = Some b
             /\ b_username b = r_owner repo
             /\ In (brief repo) (b_repositories b)
             /\ (is_ok (users_getByUsername octokit (r_owner repo)) = false ->
                 b_type b = "unknown"))
  /\ (forall criteria log0 ranked b,
        fst (findBusinesses criteria log0) = Ok ranked ->
        In b ranked ->
        is_ok (users_getByUsername octokit (b_username b)) = true).
Proof.
  intros Hinh. split.
  - pose proof (@group_by_owner_inv repositories [] log (Forall_nil _)) as Hinv.
    unfold group_by_owner.
    destruct (for_of repositories group_repo [] log) as [[businesses | e] log'];
      simpl in Hinv.
    + exists businesses, log'. split; [reflexivity |].
      destruct Hinv as (Hok & _ & Hcol).
      intros repo Hrepo. destruct (Hcol repo Hrepo) as (b & Hb & Hin).
      exists b. rewrite Forall_forall in Hok.
      pose proof (Hok _ (own_property_In _ _ Hb)) as [Hname Hlookup]. simpl in *.
      repeat split; auto.
      destruct (users_getByUsername octokit (r_owner repo));
        [discriminate | exact (fun _ => proj1 Hlookup)].
    + destruct Hinv as (repo & Hrepo & Hi). rewrite (Hinh repo Hrepo) in Hi. discriminate.
  - intros criteria log0 ranked b.
    unfold findBusinesses, try_catch, bind, ret.
    destruct (search_businesses criteria log0) as [[found | e] log1];
      [| simpl; intros [= <-] [] ].
    pose proof (@group_by_owner_inv found [] log1 (Forall_nil _)) as Hinv.
    unfold group_by_owner.
    destruct (for_of found group_repo [] log1) as [[businesses | e] log2];
      simpl in *; [| intros [= <-] [] ].
    intros [= <-] Hb. destruct Hinv as (Hok & _ & _).
    now apply (@rank_lookup_ok businesses b Hok).
Qed.

Lemma findBusinesses_sorts_candidates (criteria : Criteria) (log : list request) :
  fst (findBusinesses criteria log)
  = Ok (Array_sort by_stars_desc (candidates criteria log)).
Proof.
  unfold findBusinesses, candidates, try_catch, bind, ret.
  destruct (search_businesses criteria log) as [[found | e] log1]; [| reflexivity].
  destruct (group_by_owner found log1) as [[businesses | e] log2]; reflexivity.
Qed.

(** The reduction of lines 235-236 yields the sum of the star counts of the
    collected repositories. *)
Lemma star_score_total (p : Business) : star_score p = total_stars p.
Proof.
  unfold star_score, total_stars.
  assert (Hfold : forall l a,
             fold_left (fun sum repo => sum + rb_stars repo) l a = a + sum_stars l).
  { induction l as [| repo l IH]; intros a; simpl; [lia |]. rewrite IH. lia. }
  rewrite Hfold. lia.
Qed.

(** C4. [findBusinesses] returns the profiles that pass the filter, sorted
    by the sum of the star counts of their collected repositories: a profile
    with a strictly larger sum stands before one with a smaller sum, and the
    profiles of one sum keep the order they had before sorting. (Star counts
    are integers; their sums are exact.) *)
Theorem findBusinesses_ranked (criteria : Criteria) (log : list request) :
  exists ranked,
    fst (findBusinesses criteria log) = Ok ranked
    /\ Permutation ranked (candidates criteria log)
    /\ (forall i j p1 p2,
          nth_error ranked i = Some p1 -> nth_error ranked j = Some p2 ->
          sum_stars (b_repositories p1) > sum_stars (b_repositories p2) ->
          (i < j)%nat)
    /\ (forall s,
          filter (fun p => sum_stars (b_repositories p) =? s) ranked
          = filter (fun p => sum_stars (b_repositories p) =? s)
              (candidates criteria log)).
Proof.
  exists (Array_sort by_stars_desc (candidates criteria log)).
  split; [apply findBusinesses_sorts_candidates |].
  split; [apply Array_sort_perm |].
  split.
  - intros i j p1 p2 Hi Hj Hgt.
    change (total_stars p1 > total_stars p2) in Hgt.
    rewrite <- !star_score_total in Hgt.
    pose proof (Array_sort_descending star_score (candidates criteria log)) as Hsorted.
    destruct (Nat.lt_trichotomy i j) as [Hlt | [-> | Hlt]]; [exact Hlt | |].
    + rewrite Hi in Hj. injection Hj as <-. lia.
    + pose proof (StronglySorted_nth Hsorted Hlt Hj Hi) as Hle.
      unfold descending in Hle. lia.
  - intros s.
    assert (Hsame : forall l : list Business,
               filter (fun p => sum_stars (b_repositories p) =? s) l
               = filter (fun p => star_score p =? s) l).
    { intros l. apply filter_ext. intros p.
      now rewrite star_score_total. }
    rewrite !Hsame. apply (Array_sort_stable star_score).
Qed.

(** *** TrendFinder *)

Lemma sinceDate_window (since : string) :
  inherited since = false ->
  sinceDate since = ADate (Date_now - window_days since * day_ms).
Proof.
  intros Hinh. unfold sinceDate, get_property, dateMap, window_days, day_ms.
  cbn [own_property]. rewrite Hinh.
  rewrite (String.eqb_sym "daily"), (String.eqb_sym "monthly").
  destruct (String.eqb_spec since "daily") as [-> | _]; [f_equal; lia |].
  destruct (String.eqb_spec "weekly" since) as [<- | _]; [reflexivity |].
  destruct (String.eqb since "monthly"); f_equal; lia.
Qed.

(** For a window keyword that is not a name inherited from
    [Object.prototype], one search is made: its query asks for repositories
    created after the day that lies 1, 30 or 7 days before the evaluation
    time, the language clause is there exactly when [language] is not empty,
    and 30 results per page are asked for. *)
Lemma getTrendingRepos_window (language since : string) (log : list request) :
  inherited since = false ->
  getTrendingRepos language since log
  = searchRepositories
      (trend_query
         (split_first "T"%char (Date_toISOString (Date_now - window_days since * day_ms)))
         language)
      {| opt_sort := Some "stars"; opt_order := Some "desc";
         opt_per_page := Some 30; opt_page := None |} log.
Proof.
  intros Hinh. unfold getTrendingRepos, try_catch, bind, lift.
  rewrite (sinceDate_window _ Hinh). simpl dateString.
  match goal with
  | |- context [searchRepositories ?q ?o log] =>
      destruct (searchRepositories_returns q o log) as (found & so & Hs)
  end.
  now rewrite Hs.
Qed.

(** The request of such a run: 30 results per page, first page, by stars. *)
Lemma getTrendingRepos_request (language since : string) (log : list request) :
  inherited since = false ->
  snd (getTrendingRepos language since log)
  = log ++ [SearchRepos
              {| so_q := trend_query
                           (split_first "T"%char
                              (Date_toISOString (Date_now - window_days since * day_ms)))
                           language;
                 so_sort := "stars";
                 so_order := "desc";
                 so_per_page := 30;
                 so_page := 1 |}].
Proof.
  intros Hinh. rewrite (@getTrendingRepos_window language since log Hinh).
  unfold searchRepositories, try_catch, bind, await, lift, ret. simpl.
  destruct (search_repos octokit _) as [items | e]; [| reflexivity].
  destruct (map_result to_repository items); reflexivity.
Qed.

(** For a window keyword that is a name inherited from [Object.prototype]
    no request is made and the empty list is returned. *)
Lemma getTrendingRepos_inherited (language since : string) (log : list request) :
  inherited since = true ->
  getTrendingRepos language since log = (Ok [], log).
Proof.
  unfold inherited. intros H. apply existsb_exists in H.
  destruct H as (key & Hkey & Heq). apply String.eqb_eq in Heq. subst key.
  unfold Object_prototype_keys in Hkey. simpl in Hkey.
  repeat (destruct Hkey as [<- | Hkey]; [reflexivity |]).
  destruct Hkey.
Qed.

(** C8 (the code departs from it). The window keyword ["constructor"] is not
    one of daily, weekly and monthly, and no search with the 7-day filter is
    made for it: [dateMap[since]] yields the inherited [constructor] member,
    [toISOString] is called on it, and the [catch] returns the empty list
    without any request. *)
Theorem getTrendingRepos_constructor (language : string) (log : list request) :
  getTrendingRepos language "constructor" log = (Ok [], log).
Proof. reflexivity. Qed.

End Reader.

(* ================================================================== *)
(** ** Properties that range over clients, and sample runs *)

(** C1 (the code departs from it). On the sample tree with an empty filter
    the specification's listing holds the two files of the tree, and
    [listRepoFiles] returns the empty array: [path.extname] at line 39 is
    called on the string parameter [path]. By [listRepoFiles_is_empty] the
    same happens for every tree and every filter. *)
Theorem listRepoFiles_sample_tree :
  listRepoFiles "acme" "shop" "" "main" [] sample_tree = Ok []
  /\ spec_listFiles [] sample_tree
     = [ mkFileEntry "index.js" "index.js" 120 "https://raw.example/index.js" "file" ".js";
         mkFileEntry "README.md" "docs/README.md" 300
           "https://raw.example/docs/README.md" "file" ".md" ].
Proof. split; reflexivity. Qed.

(** C5 (the code departs from it). For a repository without [README.md]
    and with a [README.rst], the analysis requests [README.md] only and
    matches no keyword, although the fallback retrieval the specification
    describes finds the text of [README.rst], which holds four keywords. *)
Theorem analyzeRepository_skips_fallback :
  let run := analyzeRepository octokit_rst base64_decode sample_now sample_parse
               "acme" "shop" [] in
  match fst run with
  | Ok (Some a) => a_keywordMatches a = []
  | _ => False
  end
  /\ snd run = [ReposGet "acme" "shop"; GetContent "acme" "shop" "README.md" "main"]
  /\ spec_readme octokit_rst base64_decode "acme" "shop"
     = Some "Acme Inc: the commercial platform of our company. Platform docs follow."
  /\ keywordMatches (spec_readme octokit_rst base64_decode "acme" "shop")
     = Ok ["company"; "commercial"; "platform"; "inc"].
Proof. vm_compute. repeat split; reflexivity. Qed.

(** C7, as amended. The query joins with one space the clauses of the keys
    whose value is truthy (a non-empty string, a number other than 0), in the
    order industry, technology, location, company, minStars; when no key has a
    truthy value the query is ["type:org"]. *)
Theorem build_query_truthy_clauses (criteria : Criteria) :
  build_query criteria
  = join " " (or_default (clauses_of truthy_string truthy_number criteria)).
Proof.
  unfold build_query, build_queries, clauses_of, clause_when.
  destruct (truthy_string (c_industry criteria)),
    (truthy_string (c_technology criteria)),
    (truthy_string (c_location criteria)),
    (truthy_string (c_company criteria)),
    (truthy_number (c_minStars criteria)); reflexivity.
Qed.

(** C7 as stated fails: [minStars] is present in [{minStars: 0}], yet the
    query is the default and not the star clause. *)
Lemma build_query_zero_stars :
  build_query zero_stars = "type:org"
  /\ spec_build_query zero_stars = "stars:>=0"
  /\ build_query zero_stars <> spec_build_query zero_stars.
Proof. repeat split; try reflexivity. discriminate. Qed.

Example build_query_go_500 :
  build_query {| c_industry := None; c_technology := Some "Go"; c_location := None;
                 c_company := None; c_minStars := Some 500; c_limit := None |}
  = "language:Go stars:>=500".
Proof. reflexivity. Qed.

(** C2 as stated fails: the search finds [globex/reactor], the lookup of
    [globex] is rejected, and the list [findBusinesses] returns holds the
    profile of [acme] only. *)
Lemma findBusinesses_drops_failed_lookup :
  fst (search_businesses octokit_demo no_criteria []) = Ok demo_repositories
  /\ In "globex" (map r_owner demo_repositories)
  /\ users_getByUsername octokit_demo "globex" = Throw (HttpError 404 "Not Found")
  /\ match fst (findBusinesses octokit_demo no_criteria []) with
     | Ok ranked => map b_username ranked = ["acme"]
     | Throw _ => False
     end.
Proof. vm_compute. repeat split; auto. Qed.

Lemma failed_lookup_keeps_entry_witness :
  (exists businesses log',
      group_by_owner octokit_demo demo_repositories [] = (Ok businesses, log')
      /\ forall repo, In repo demo_repositories ->
           exists b,
             own_property businesses (r_owner repo) = Some b
             /\ b_username b = r_owner repo
             /\ In (brief repo) (b_repositories b)
             /\ (is_ok (users_getByUsername octokit_demo (r_owner repo)) = false ->
                 b_type b = "unknown"))
  /\ (forall criteria log0 ranked b,
        fst (findBusinesses octokit_demo criteria log0) = Ok ranked ->
        In b ranked ->
        is_ok (users_getByUsername octokit_demo (b_username b)) = true).
Proof.
  apply (@failed_lookup_keeps_entry octokit_demo demo_repositories []).
  intros repo [<- | [<- | [<- | []]]]; reflexivity.
Defined.

Lemma businessScore_counts_witness :
  a_businessScore shop_analysis
  = Z.of_nat (count_occ bool_dec (indicator_values (a_businessIndicators shop_analysis)) true)
    + Z.of_nat (List.length (a_keywordMatches shop_analysis))
  /\ 0 <= a_businessScore shop_analysis
     <= Z.of_nat (List.length (indicator_values (a_businessIndicators shop_analysis)))
        + Z.of_nat (List.length businessKeywords)
  /\ NoDup (a_keywordMatches shop_analysis)
  /\ incl (a_keywordMatches shop_analysis) businessKeywords.
Proof.
  apply (@businessScore_counts octokit_demo base64_decode sample_now sample_parse
           "acme" "shop" []
           [ReposGet "acme" "shop"; GetContent "acme" "shop" "README.md" "main"]).
  reflexivity.
Defined.

Example indicator_and_keyword_counts :
  List.length (indicator_values (a_businessIndicators shop_analysis)) = 7%nat
  /\ List.length businessKeywords = 16%nat.
Proof. split; reflexivity. Qed.


(** *** Sample runs *)

(** Keys that are array indices come first in [Object.values], in numeric
    order; profiles of equal star total keep that order in the result. *)
Example findBusinesses_orgs_order :
  match fst (findBusinesses octokit_orgs no_criteria []) with
  | Ok ranked => map b_username ranked = ["alpha"; "7"; "42"; "zeta"]
  | Throw _ => False
  end.
Proof. reflexivity. Qed.

(** An owner named [constructor] makes line 222 throw, and the whole call
    returns the empty list. *)
Example findBusinesses_owner_constructor :
  findBusinesses octokit_constructor no_criteria []
  = (Ok [],
     [ SearchRepos (mkSearchOptions "type:org" "stars" "desc" 50 1);
       GetByUsername "acme" ]).
Proof. reflexivity. Qed.

Example getTrendingRepos_daily :
  snd (getTrendingRepos octokit_demo sample_now sample_toISOString "" "daily" [])
  = [SearchRepos (mkSearchOptions "created:>2024-05-31" "stars" "desc" 30 1)].
Proof. reflexivity. Qed.

Example getTrendingRepos_bogus :
  snd (getTrendingRepos octokit_demo sample_now sample_toISOString "Go" "bogus" [])
  = [SearchRepos (mkSearchOptions "created:>2024-05-25 language:Go" "stars" "desc" 30 1)].
Proof. reflexivity. Qed.

Example getTrendingRepos_monthly :
  snd (getTrendingRepos octokit_demo sample_now sample_toISOString "" "monthly" [])
  = [SearchRepos (mkSearchOptions "created:>2024-05-02" "stars" "desc" 30 1)].
Proof. reflexivity. Qed.

Example fetchRepoFile_readme :
  fst (fetchRepoFile octokit_demo base64_decode "acme" "shop" "README.md" "main" [])
  = Ok (Some (mkFileContent "README.md" "README.md" 72
                (Some "We are a SaaS company providing an enterprise platform")
                (Some "base64") "3b18e512dba79e4c8300dd08aeb37f8e728b8dad"
                (Some "https://raw.example/acme/shop/main/README.md")))
  /\ fst (fetchRepoFile octokit_demo base64_decode "acme" "shop" "LICENSE" "main" [])
     = Ok None.
Proof. split; reflexivity. Qed.

(* ================================================================== *)
(** * Further properties of the operations *)

(** ** Definitions used to state them *)

(** A profile with its [repositories] replaced. *)
Definition with_repositories (b : Business) (l : list RepoBrief) : Business :=
  {| b_username := b_username b;
     b_name := b_name b;
     b_type := b_type b;
     b_description := b_description b;
     b_location := b_location b;
     b_website := b_website b;
     b_url := b_url b;
     b_avatar_url := b_avatar_url b;
     b_public_repos := b_public_repos b;
     b_followers := b_followers b;
     b_following := b_following b;
     b_created_at := b_created_at b;
     b_repositories := l |}.

(** The repositories of a list that belong to the owner [k], in the order of
    the list. *)
Definition owned_by (k : string) (repositories : list Repository) : list Repository :=
  filter (fun r => String.eqb (r_owner r) k) repositories.

(** An entry of [businesses] after the repositories [processed] have been
    grouped: the entry made for its key at lines 191-219, holding the
    condensed repositories of that owner in the order they were met. *)
Definition entry_of (octokit : Octokit) (processed : list Repository)
    (kv : string * Business) : Prop :=
  snd kv
  = with_repositories (fresh_entry octokit (fst kv))
      (map brief (owned_by (fst kv) processed)).

(** The state of [businesses] after the repositories [processed] have been
    grouped. *)
Definition grouped (octokit : Octokit) (processed : list Repository)
    (businesses : JsObject Business) : Prop :=
  NoDup (map fst businesses)
  /\ Forall (entry_of octokit processed) businesses
  /\ (forall r, In r processed -> own_property businesses (r_owner r) <> None)
  /\ (forall k, In k (map fst businesses) ->
        inherited k = false /\ In k (map r_owner processed)).

(** The fields the callback of lines 123-139 copies from a search item. *)
Definition copied (item : RepoItem) (r : Repository) : Prop :=
  r_id r = ri_id item
  /\ r_name r = ri_name item
  /\ r_full_name r = ri_full_name item
  /\ ri_owner item = Some (r_owner r)
  /\ r_description r = ri_description item
  /\ r_url r = ri_html_url item
  /\ r_language r = ri_language item
  /\ r_stars r = ri_stargazers_count item
  /\ r_forks r = ri_forks_count item
  /\ r_issues r = ri_open_issues_count item.

(** [searchOptions] of lines 113-119 for the arguments of
    [searchRepositories]. *)
Definition searchOptions_of (query : string) (options : Options) : SearchOptions :=
  {| so_q := query;
     so_sort := or_string (opt_sort options) "stars";
     so_order := or_string (opt_order options) "desc";
     so_per_page := or_number (opt_per_page options) 30;
     so_page := or_number (opt_page options) 1 |}.

(** The options [findBusinesses] passes at lines 178-182. *)
Definition business_options (criteria : Criteria) : Options :=
  {| opt_sort := Some "stars";
     opt_order := Some "desc";
     opt_per_page := Some (or_number (c_limit criteria) 50);
     opt_page := None |}.

(** A search item without owner. *)
Definition orphan_item : RepoItem :=
  {| ri_id := 9;
     ri_name := "ghost";
     ri_full_name := "ghost";
     ri_owner := None;
     ri_description := None;
     ri_html_url := "https://github.example/ghost";
     ri_clone_url := "https://github.example/ghost.git";
     ri_language := None;
     ri_stargazers_count := 900;
     ri_forks_count := 0;
     ri_open_issues_count := 0;
     ri_topics := None;
     ri_created_at := "2023-01-01T00:00:00Z";
     ri_updated_at := "2024-05-01T00:00:00Z";
     ri_license := None |}.

(** A client whose search finds the items of [octokit_demo] and one item
    without owner. *)
Definition octokit_orphan : Octokit :=
  with_search octokit_demo (Ok (demo_items ++ [orphan_item])).

(** The repositories the search of [octokit_constructor] yields. *)
Definition constructor_repositories : list Repository :=
  match map_result to_repository
          [ search_item 1 "acme" "shop" 50; search_item 2 "constructor" "builder" 40 ] with
  | Ok repositories => repositories
  | Throw _ => []
  end.

(** The profile of [acme] in the run of [findBusinesses] on [octokit_demo]. *)
Definition acme_profile : Business :=
  {| b_username := "acme";
     b_name := Some "acme";
     b_type := "Organization";
     b_description := None;
     b_location := None;
     b_website := None;
     b_url := Some "https://github.example/acme";
     b_avatar_url := Some "https://avatars.example/acme";
     b_public_repos := Some 12;
     b_followers := Some 3;
     b_following := Some 0;
     b_created_at := Some "2020-01-01T00:00:00Z";
     b_repositories :=
       [ mkRepoBrief "shop" None (Some "Go") 50 "https://github.example/acme/shop";
         mkRepoBrief "anvil" None (Some "Go") 40 "https://github.example/acme/anvil" ] |}.


(** The value built at lines 302-319 from the repository data and the
    matched keywords. *)
Definition analysis_of (Date_now : Z) (Date_parse : string -> option Z)
    (repoData : RepoData) (matches : list string) : Analysis :=
  {| a_repository :=
       {| info_name := rd_full_name repoData;
          info_description := rd_description repoData;
          info_language := rd_language repoData;
          info_stars := rd_stargazers_count repoData;
          info_forks := rd_forks_count repoData;
          info_issues := rd_open_issues_count repoData;
          info_topics := rd_topics repoData;
          info_license := rd_license repoData;
          info_homepage := rd_homepage repoData;
          info_created_at := rd_created_at repoData;
          info_updated_at := rd_updated_at repoData |};
     a_businessIndicators := businessIndicators Date_now Date_parse repoData;
     a_keywordMatches := matches;
     a_businessScore :=
       businessScore (businessIndicators Date_now Date_parse repoData) matches |}.

(** ** Lists, strings and plain objects *)

Lemma map_result_Forall2 {A B} (f : A -> result B) (l : list A) (l' : list B) :
  map_result f l = Ok l' -> Forall2 (fun x y => f x = Ok y) l l'.
Proof.
  revert l'. induction l as [| x l IH]; intros l'; simpl.
  - intros [= <-]. constructor.
  - destruct (f x) as [y | e] eqn:Hx; [| discriminate].
    destruct (map_result f l) as [ys | e]; [| discriminate].
    intros [= <-]. constructor; [exact Hx | now apply IH].
Qed.

Lemma map_result_all_ok {A B} (f : A -> result B) (l : list A) :
  (forall x, In x l -> is_ok (f x) = true) -> exists l', map_result f l = Ok l'.
Proof.
  induction l as [| x l IH]; intros Hall; simpl; [eauto |].
  pose proof (Hall x (or_introl eq_refl)) as Hx.
  destruct (f x) as [y | e]; [| discriminate].
  destruct IH as [ys Hys]; [intros z Hz; apply Hall; now right |].
  rewrite Hys. eauto.
Qed.

Lemma map_result_some_throw {A B} (f : A -> result B) (l : list A) (x : A) :
  In x l -> is_ok (f x) = false -> exists e, map_result f l = Throw e.
Proof.
  induction l as [| y l IH]; intros Hin Hx; [destruct Hin |].
  simpl. destruct Hin as [-> | Hin].
  - destruct (f x) as [z | e]; [discriminate | eauto].
  - destruct (f y) as [z | e]; [| eauto].
    destruct (IH Hin Hx) as [e He]. rewrite He. eauto.
Qed.

Lemma prefix_iff (k s : string) :
  String.prefix k s = true <-> exists post, s = (k ++ post)%string.
Proof.
  revert s. induction k as [| a k IH]; intros s; simpl.
  - split; [intros _; now exists s | intros _; now destruct s].
  - destruct s as [| b s].
    + split; [discriminate | intros [post H]; discriminate].
    + simpl. destruct (ascii_dec a b) as [-> | Hab].
      * rewrite IH. split; intros [post H]; exists post.
        -- now rewrite H.
        -- now injection H.
      * split; [discriminate |]. intros [post H]. injection H as H1 _. congruence.
Qed.

Lemma includes_unfold (s k : string) :
  includes s k
  = if String.prefix k s then true
    else match s with
         | EmptyString => false
         | String _ rest => includes rest k
         end.
Proof. destruct s; reflexivity. Qed.

Lemma includes_iff (s k : string) :
  includes s k = true <-> exists pre post, s = (pre ++ k ++ post)%string.
Proof.
  split.
  - induction s as [| c s IH]; rewrite includes_unfold;
      destruct (String.prefix k _) eqn:Hp.
    + intros _. apply prefix_iff in Hp. destruct Hp as [post Hp].
      now exists ""%string, post.
    + discriminate.
    + intros _. apply prefix_iff in Hp. destruct Hp as [post Hp].
      now exists ""%string, post.
    + intros H. destruct (IH H) as (pre & post & Hs).
      exists (String c pre), post. simpl. now rewrite Hs.
  - intros (pre & post & ->). induction pre as [| c pre IH]; rewrite includes_unfold.
    + assert (Hp : String.prefix k (k ++ post) = true) by (apply prefix_iff; eauto).
      simpl append. now rewrite Hp.
    + destruct (String.prefix k _); [reflexivity | exact IH].
Qed.

Lemma toLowerCase_app (a b : string) :
  toLowerCase (a ++ b) = (toLowerCase a ++ toLowerCase b)%string.
Proof. induction a as [| c a IH]; simpl; [reflexivity | now rewrite IH]. Qed.

Lemma own_property_None_iff {V} (obj : JsObject V) (k : string) :
  own_property obj k = None <-> ~ In k (map fst obj).
Proof.
  induction obj as [| [k0 w] obj IH]; simpl.
  - split; [intros _ [] | reflexivity].
  - destruct (String.eqb_spec k0 k) as [-> | Hne].
    + split; [discriminate | intros H; exfalso; apply H; now left].
    + rewrite IH. split; [intros H [H1 | H1]; [congruence | now apply H] |].
      intros H H1. apply H. now right.
Qed.

Lemma set_property_new {V} (obj : JsObject V) (k : string) (v : V) :
  own_property obj k = None -> set_property obj k v = obj ++ [(k, v)].
Proof.
  induction obj as [| [k0 w] obj IH]; simpl; [reflexivity |].
  destruct (String.eqb k0 k); [discriminate |].
  intros H. now rewrite IH.
Qed.

Lemma set_property_again {V} (obj : JsObject V) (k : string) (v v' : V) :
  set_property (set_property obj k v) k v' = set_property obj k v'.
Proof.
  induction obj as [| [k0 w] obj IH]; simpl.
  - now rewrite String.eqb_refl.
  - destruct (String.eqb k0 k) eqn:Hk; simpl; rewrite Hk; [reflexivity | now rewrite IH].
Qed.

Lemma set_property_keys {V} (obj : JsObject V) (k : string) (v : V) :
  own_property obj k <> None -> map fst (set_property obj k v) = map fst obj.
Proof.
  induction obj as [| [k0 w] obj IH]; simpl; [congruence |].
  destruct (String.eqb k0 k); simpl; [reflexivity |].
  intros H. now rewrite IH.
Qed.

Lemma set_property_update {V} (P Q : string * V -> Prop) (obj : JsObject V)
    (k : string) (v : V) :
  NoDup (map fst obj) ->
  Forall P obj ->
  (forall kv, fst kv <> k -> P kv -> Q kv) ->
  Q (k, v) ->
  Forall Q (set_property obj k v).
Proof.
  intros Hnd HP Hother Hk.
  induction obj as [| [k0 w] obj IH]; simpl.
  - now constructor.
  - inversion Hnd as [| ? ? Hnot Hnd']; subst.
    inversion HP as [| ? ? Hhead Htail]; subst.
    destruct (String.eqb_spec k0 k) as [-> | Hne].
    + constructor; [exact Hk |].
      rewrite Forall_forall in Htail. apply Forall_forall. intros [k1 w1] Hin.
      apply Hother; [| now apply Htail].
      simpl. intros ->. apply Hnot. apply in_map_iff. now exists (k, w1).
    + constructor; [now apply Hother | now apply IH].
Qed.

Lemma In_own_property {V} (obj : JsObject V) (k : string) (v : V) :
  NoDup (map fst obj) -> In (k, v) obj -> own_property obj k = Some v.
Proof.
  induction obj as [| [k0 w] obj IH]; simpl; intros Hnd Hin; [destruct Hin |].
  inversion Hnd as [| ? ? Hnot Hnd']; subst.
  destruct Hin as [[= -> ->] | Hin].
  - now rewrite String.eqb_refl.
  - destruct (String.eqb_spec k0 k) as [-> | _]; [| now apply IH].
    exfalso. apply Hnot. apply in_map_iff. now exists (k, v).
Qed.

Lemma filter_partition_perm {A} (f : A -> bool) (l : list A) :
  Permutation (filter f l ++ filter (fun x => negb (f x)) l) l.
Proof.
  induction l as [| x l IH]; simpl; [constructor |].
  destruct (f x); simpl.
  - now constructor.
  - rewrite <- Permutation_middle. now constructor.
Qed.

Lemma Object_values_perm {V} (obj : JsObject V) :
  Permutation (Object_values obj) (map snd obj).
Proof.
  unfold Object_values. apply Permutation_map.
  rewrite Array_sort_perm. apply filter_partition_perm.
Qed.

(** Filtering keeps the images under [image] distinct. *)
Lemma distinct_images_filter {X Y} (image : X -> Y) (keep : X -> bool) (xs : list X)
    (Hdistinct : NoDup (map image xs)) :
  NoDup (map image (filter keep xs)).
Proof.
  induction xs as [| x xs IH]; cbn in *; [exact Hdistinct |].
  apply NoDup_cons_iff in Hdistinct. destruct Hdistinct as [Hfresh Hrest].
  destruct (keep x); cbn; [| exact (IH Hrest)].
  apply NoDup_cons; [| exact (IH Hrest)].
  intros Himage. apply Hfresh.
  apply in_map_iff in Himage. destruct Himage as (y & Hy & Hkept).
  apply in_map_iff. exists y. split; [exact Hy |].
  apply filter_In in Hkept. exact (proj1 Hkept).
Qed.

(** ** The search *)

Lemma searchRepositories_run (octokit : Octokit) (query : string) (options : Options)
    (log : list request) :
  searchRepositories octokit query options log
  = (match search_repos octokit (searchOptions_of query options) with
     | Ok items =>
         match map_result to_repository items with
         | Ok found => Ok found
         | Throw _ => Ok []
         end
     | Throw _ => Ok []
     end,
     log ++ [SearchRepos (searchOptions_of query options)]).
Proof.
  unfold searchRepositories, searchOptions_of, try_catch, bind, await, lift, ret.
  destruct (search_repos octokit _) as [items | e]; [| reflexivity].
  destruct (map_result to_repository items); reflexivity.
Qed.

Lemma to_repository_copied (item : RepoItem) (r : Repository) :
  to_repository item = Ok r -> copied item r.
Proof.
  unfold to_repository, copied.
  destruct (ri_owner item) as [login |]; [| discriminate].
  intros [= <-]. simpl. repeat split; reflexivity.
Qed.

Lemma to_repository_ok_iff (item : RepoItem) :
  is_ok (to_repository item) = true <-> ri_owner item <> None.
Proof.
  unfold to_repository. destruct (ri_owner item); simpl; split; congruence.
Qed.

(** ** The grouping loop *)

Lemma owned_by_snoc (k : string) (processed : list Repository) (repo : Repository) :
  owned_by k (processed ++ [repo])
  = owned_by k processed ++ (if String.eqb (r_owner repo) k then [repo] else []).
Proof. unfold owned_by. now rewrite filter_app. Qed.

Lemma owned_by_none (k : string) (processed : list Repository) :
  (forall r, In r processed -> r_owner r <> k) -> owned_by k processed = [].
Proof.
  induction processed as [| r l IH]; intros H; [reflexivity |].
  unfold owned_by in *. simpl.
  destruct (String.eqb_spec (r_owner r) k) as [Heq | _].
  - exfalso. apply (H r); [now left | exact Heq].
  - apply IH. intros r' Hr'. apply H. now right.
Qed.

Lemma fresh_entry_repositories (octokit : Octokit) (k : string) :
  b_repositories (fresh_entry octokit k) = [].
Proof. unfold fresh_entry. destruct (users_getByUsername octokit k); reflexivity. Qed.

Lemma own_property_key {V} (obj : JsObject V) (k : string) :
  own_property obj k <> None -> In k (map fst obj).
Proof.
  intros H. destruct (in_dec string_dec k (map fst obj)) as [Hin | Hnot]; [exact Hin |].
  now apply own_property_None_iff in Hnot.
Qed.

(** One turn of the loop keeps the grouping. *)
Lemma grouped_step (octokit : Octokit) (processed : list Repository)
    (businesses : JsObject Business) (repo : Repository) (log : list request) :
  grouped octokit processed businesses ->
  (own_property businesses (r_owner repo) = None -> inherited (r_owner repo) = false) ->
  exists businesses' log',
    group_repo octokit businesses repo log = (Ok businesses', log')
    /\ grouped octokit (processed ++ [repo]) businesses'.
Proof.
  intros (Hnd & Hent & Hcov & Hkeys) Hinh. rewrite group_repo_step.
  assert (Hother : forall kv : string * Business,
             fst kv <> r_owner repo ->
             entry_of octokit processed kv -> entry_of octokit (processed ++ [repo]) kv).
  { intros [k' v'] Hne He. unfold entry_of in *. simpl in *.
    rewrite owned_by_snoc.
    destruct (String.eqb_spec (r_owner repo) k') as [Heq | _]; [congruence |].
    now rewrite app_nil_r. }
  assert (Hcov' : forall b1 : JsObject Business,
             (forall k', own_property b1 k'
                         = if String.eqb (r_owner repo) k' then own_property b1 k'
                           else own_property businesses k') ->
             own_property b1 (r_owner repo) <> None ->
             forall r, In r (processed ++ [repo]) -> own_property b1 (r_owner r) <> None).
  { intros b1 Hb1 Howner r Hr.
    destruct (String.eqb_spec (r_owner repo) (r_owner r)) as [Heq | Hne].
    - now rewrite <- Heq.
    - rewrite Hb1. apply String.eqb_neq in Hne. rewrite Hne.
      apply in_app_or in Hr. destruct Hr as [Hr | [<- | []]]; [now apply Hcov |].
      now rewrite String.eqb_refl in Hne. }
  destruct (own_property businesses (r_owner repo)) as [b |] eqn:Hown.
  - eexists _, _. split; [reflexivity |].
    assert (Hsome : own_property businesses (r_owner repo) <> None) by congruence.
    split; [| split; [| split]].
    + now rewrite set_property_keys.
    + apply set_property_update with (P := entry_of octokit processed); auto.
      rewrite Forall_forall in Hent.
      pose proof (Hent _ (own_property_In _ _ Hown)) as Hb.
      unfold entry_of in *. simpl in *. rewrite Hb at 1.
      rewrite owned_by_snoc, String.eqb_refl, map_app. reflexivity.
    + apply Hcov'.
      * intros k'. rewrite own_property_set. now destruct (String.eqb (r_owner repo) k').
      * rewrite own_property_set, String.eqb_refl. discriminate.
    + intros k Hk. rewrite set_property_keys in Hk by exact Hsome.
      destruct (Hkeys k Hk) as [Hi Hin]. split; [exact Hi |].
      rewrite map_app. apply in_or_app. now left.
  - rewrite (Hinh eq_refl), set_property_again.
    eexists _, _. split; [reflexivity |].
    assert (Hnew : ~ In (r_owner repo) (map fst businesses))
      by now apply own_property_None_iff.
    split; [| split; [| split]].
    + rewrite set_property_new by exact Hown.
      rewrite map_app. simpl. now apply NoDup_snoc.
    + rewrite set_property_new by exact Hown.
      apply Forall_app. split.
      * rewrite Forall_forall in Hent. apply Forall_forall. intros [k' v'] Hin.
        apply Hother; [| now apply Hent].
        simpl. intros ->. apply Hnew. apply in_map_iff. now exists (r_owner repo, v').
      * constructor; [| constructor].
        unfold entry_of. simpl.
        rewrite owned_by_snoc, String.eqb_refl, owned_by_none.
        -- unfold push_repository, with_repositories.
           now rewrite fresh_entry_repositories.
        -- intros r Hr Heq. apply (Hcov r Hr). now rewrite Heq.
    + apply Hcov'.
      * intros k'. rewrite own_property_set. now destruct (String.eqb (r_owner repo) k').
      * rewrite own_property_set, String.eqb_refl. discriminate.
    + intros k Hk. rewrite set_property_new in Hk by exact Hown.
      rewrite map_app in Hk. apply in_app_or in Hk. rewrite map_app.
      destruct Hk as [Hk | [<- | []]].
      * destruct (Hkeys k Hk) as [Hi Hin]. split; [exact Hi |].
        apply in_or_app. now left.
      * split; [now apply Hinh |]. apply in_or_app. right. now left.
Qed.

Lemma grouped_nil (octokit : Octokit) : grouped octokit [] [].
Proof.
  split; [constructor | split; [constructor | split]]; intros ? [].
Qed.

(** The loop ends with every repository grouped under its owner, or throws
    at an owner whose name is inherited. *)
Lemma group_by_owner_grouped (octokit : Octokit) (rest : list Repository) :
  forall processed businesses log,
    grouped octokit processed businesses ->
    match fst (for_of rest (group_repo octokit) businesses log) with
    | Ok businesses' => grouped octokit (processed ++ rest) businesses'
    | Throw _ => exists r, In r rest /\ inherited (r_owner r) = true
    end.
Proof.
  induction rest as [| repo rest IH]; intros processed businesses log Hg.
  - simpl. now rewrite app_nil_r.
  - simpl for_of. unfold bind.
    destruct (own_property businesses (r_owner repo)) as [b |] eqn:Hown;
      [| destruct (inherited (r_owner repo)) eqn:Hinh ].
    2: { rewrite group_repo_step, Hown, Hinh. simpl.
         exists repo. split; [now left | exact Hinh]. }
    all: destruct (@grouped_step octokit processed businesses repo log Hg)
        as (businesses1 & log1 & Hstep & Hg1); [congruence |];
      rewrite Hstep; specialize (IH (processed ++ [repo]) businesses1 log1 Hg1);
      rewrite <- app_assoc in IH; simpl in IH;
      destruct (fst (for_of rest (group_repo octokit) businesses1 log1));
      [ exact IH
      | destruct IH as (r & Hr & Hi); exists r; split; [now right | exact Hi] ].
Qed.

(** An owner whose name is inherited makes the loop throw. *)
Lemma group_by_owner_throws (octokit : Octokit) (rest : list Repository) :
  forall processed businesses log,
    grouped octokit processed businesses ->
    (exists r, In r rest /\ inherited (r_owner r) = true) ->
    exists e, fst (for_of rest (group_repo octokit) businesses log) = Throw e.
Proof.
  induction rest as [| repo rest IH]; intros processed businesses log Hg (r & Hr & Hi).
  - destruct Hr.
  - simpl for_of. unfold bind.
    destruct (own_property businesses (r_owner repo)) as [b |] eqn:Hown;
      [| destruct (inherited (r_owner repo)) eqn:Hinh ].
    2: { rewrite group_repo_step, Hown, Hinh. simpl. eauto. }
    all: assert (Hrepo : inherited (r_owner repo) = false);
      [ try exact Hinh;
        destruct Hg as (_ & _ & _ & Hkeys);
        apply Hkeys, own_property_key; congruence
      | destruct (@grouped_step octokit processed businesses repo log Hg)
          as (businesses1 & log1 & Hstep & Hg1); [congruence |];
        rewrite Hstep; apply (IH (processed ++ [repo]) businesses1 log1 Hg1);
        exists r; split; [| exact Hi];
        destruct Hr as [<- | Hr]; [congruence | exact Hr] ].
Qed.

(** The owners looked up by the loop: those of the repositories that had no
    entry yet. *)
Lemma group_by_owner_fetch_set (octokit : Octokit) (rest : list Repository) :
  forall businesses log,
    (forall r, In r rest -> inherited (r_owner r) = false) ->
    forall u,
      In u (profile_fetches (snd (for_of rest (group_repo octokit) businesses log)))
      <-> In u (profile_fetches log)
          \/ (In u (map r_owner rest) /\ own_property businesses u = None).
Proof.
  induction rest as [| repo rest IH]; intros businesses log Hinh u.
  - simpl. split; [now left | intros [H | [[] _]]; exact H].
  - simpl for_of. unfold bind. rewrite group_repo_step.
    assert (Hrest : forall r, In r rest -> inherited (r_owner r) = false)
      by (intros r Hr; apply Hinh; now right).
    destruct (own_property businesses (r_owner repo)) as [b |] eqn:Hown.
    + rewrite (IH _ _ Hrest). rewrite own_property_set. simpl.
      destruct (String.eqb_spec (r_owner repo) u) as [<- | Hne].
      * rewrite Hown. split; (intros [H | [_ H]]; [now left | discriminate]).
      * split; (intros [H | [H1 H2]]; [now left | right; split; [| exact H2]]).
        -- now right.
        -- destruct H1 as [H1 | H1]; [congruence | exact H1].
    + rewrite (Hinh repo (or_introl eq_refl)).
      rewrite (IH _ _ Hrest). rewrite !own_property_set, profile_fetches_app. simpl.
      destruct (String.eqb_spec (r_owner repo) u) as [<- | Hne].
      * split; intros _.
        -- right. split; [now left | exact Hown].
        -- left. apply in_or_app. right. now left.
      * split.
        -- intros [H | [H1 H2]].
           ++ apply in_app_or in H. destruct H as [H | [H | []]]; [now left | congruence].
           ++ right. split; [now right | exact H2].
        -- intros [H | [H1 H2]].
           ++ left. apply in_or_app. now left.
           ++ right. split; [| exact H2].
              destruct H1 as [H1 | H1]; [congruence | exact H1].
Qed.

(** A run of [findBusinesses], given what its search found. *)
Lemma findBusinesses_run (octokit : Octokit) (criteria : Criteria)
    (log : list request) (found : list Repository) :
  fst (search_businesses octokit criteria log) = Ok found ->
  findBusinesses octokit criteria log
  = (match fst (group_by_owner octokit found
                  (log ++ [SearchRepos (searchOptions_of (build_query criteria)
                                          (business_options criteria))])) with
     | Ok businesses => Ok (rank businesses)
     | Throw _ => Ok []
     end,
     snd (group_by_owner octokit found
            (log ++ [SearchRepos (searchOptions_of (build_query criteria)
                                    (business_options criteria))]))).
Proof.
  unfold findBusinesses, search_businesses, try_catch, bind, ret.
  change {| opt_sort := Some "stars"; opt_order := Some "desc";
            opt_per_page := Some (or_number (c_limit criteria) 50);
            opt_page := None |} with (business_options criteria).
  rewrite searchRepositories_run. simpl fst.
  intros H. rewrite H.
  destruct (group_by_owner octokit found _) as [[businesses | e] log']; reflexivity.
Qed.

(** ** Properties of [listRepoFiles] and [searchRepositories] *)

(** X1. Whatever the tree snapshot, the path, the ref and the extension
    filter, [listRepoFiles] returns the empty array. *)
Theorem listRepoFiles_always_empty
    (owner repo path ref : string) (extensions : list string) (r : response) :
  listRepoFiles owner repo path ref extensions r = Ok [].
Proof. apply listRepoFiles_is_empty. Qed.

(** X2. When the search answers with items that all have an owner,
    [searchRepositories] returns one repository per item, in the order of
    the items, with the fields of lines 124-134 copied from the item. *)
Theorem searchRepositories_copies_items
    (octokit : Octokit) (query : string) (options : Options) (log : list request)
    (items : list RepoItem) :
  search_repos octokit (searchOptions_of query options) = Ok items ->
  (forall item, In item items -> ri_owner item <> None) ->
  exists found,
    fst (searchRepositories octokit query options log) = Ok found
    /\ Forall2 copied items found.
Proof.
  intros Hitems Howners. rewrite searchRepositories_run, Hitems. simpl fst.
  destruct (@map_result_all_ok _ _ to_repository items) as [found Hfound].
  { intros item Hin. apply to_repository_ok_iff. now apply Howners. }
  rewrite Hfound. exists found. split; [reflexivity |].
  apply map_result_Forall2 in Hfound.
  eapply Forall2_impl; [| exact Hfound].
  intros item r Hr. now apply to_repository_copied.
Qed.

Lemma searchRepositories_copies_items_witness :
  exists found,
    fst (searchRepositories octokit_demo "type:org" (business_options no_criteria) [])
    = Ok found
    /\ Forall2 copied demo_items found.
Proof.
  apply (@searchRepositories_copies_items octokit_demo "type:org"
           (business_options no_criteria) [] demo_items).
  - reflexivity.
  - intros item [<- | [<- | [<- | []]]]; discriminate.
Defined.

(** X3. When one item of the search answer has no owner, [searchRepositories]
    returns the empty array: the items that have an owner are discarded
    too. *)
Theorem searchRepositories_null_owner
    (octokit : Octokit) (query : string) (options : Options) (log : list request)
    (items : list RepoItem) (item : RepoItem) :
  search_repos octokit (searchOptions_of query options) = Ok items ->
  In item items ->
  ri_owner item = None ->
  fst (searchRepositories octokit query options log) = Ok [].
Proof.
  intros Hitems Hin Hnull. rewrite searchRepositories_run, Hitems. simpl fst.
  destruct (@map_result_some_throw _ _ to_repository items item Hin) as [e He].
  { unfold to_repository. now rewrite Hnull. }
  now rewrite He.
Qed.

Lemma searchRepositories_null_owner_witness :
  fst (searchRepositories octokit_orphan "type:org" (business_options no_criteria) [])
  = Ok [].
Proof.
  apply (@searchRepositories_null_owner octokit_orphan "type:org"
           (business_options no_criteria) [] (demo_items ++ [orphan_item]) orphan_item).
  - reflexivity.
  - apply in_or_app. right. now left.
  - reflexivity.
Defined.

Lemma or_string_nonempty (v : option string) (default : string) :
  default <> "" -> or_string v default <> "".
Proof.
  intros Hd. unfold or_string. destruct v as [s |]; [| exact Hd].
  destruct (String.eqb_spec s ""); assumption.
Qed.

Lemma or_number_nonzero (v : option Z) (default : Z) :
  default <> 0 -> or_number v default <> 0.
Proof.
  intros Hd. unfold or_number. destruct v as [n |]; [| exact Hd].
  destruct (Z.eqb_spec n 0); assumption.
Qed.

(** X4. [searchRepositories] makes exactly one request. The request carries
    the query as given, and never an empty [sort] or [order] nor a [per_page]
    or [page] of 0; a non-zero [per_page] of the options is passed on as it
    is. *)
Theorem searchRepositories_request
    (octokit : Octokit) (query : string) (options : Options) (log : list request) :
  exists so,
    snd (searchRepositories octokit query options log) = log ++ [SearchRepos so]
    /\ so_q so = query
    /\ so_sort so <> ""
    /\ so_order so <> ""
    /\ so_per_page so <> 0
    /\ so_page so <> 0
    /\ (forall n, opt_per_page options = Some n -> n <> 0 -> so_per_page so = n).
Proof.
  exists (searchOptions_of query options).
  rewrite searchRepositories_run. simpl.
  split; [reflexivity |]. split; [reflexivity |].
  split; [now apply or_string_nonempty |].
  split; [now apply or_string_nonempty |].
  split; [now apply or_number_nonzero |].
  split; [now apply or_number_nonzero |].
  intros n Hn Hnz. rewrite Hn. simpl.
  destruct (Z.eqb_spec n 0); [contradiction | reflexivity].
Qed.

(** ** Properties of [findBusinesses] *)

Lemma search_businesses_returns (octokit : Octokit) (criteria : Criteria)
    (log : list request) :
  exists found, fst (search_businesses octokit criteria log) = Ok found.
Proof.
  unfold search_businesses. rewrite searchRepositories_run. simpl fst.
  destruct (search_repos octokit _) as [items | e]; [| eauto].
  destruct (map_result to_repository items); eauto.
Qed.

Lemma business_request (criteria : Criteria) :
  searchOptions_of (build_query criteria) (business_options criteria)
  = mkSearchOptions (build_query criteria) "stars" "desc"
      (or_number (c_limit criteria) 50) 1.
Proof.
  unfold searchOptions_of, business_options.
  cbn [opt_sort opt_order opt_per_page opt_page].
  change (or_string (Some "stars") "stars") with "stars".
  change (or_string (Some "desc") "desc") with "desc".
  change (or_number None 1) with 1.
  f_equal.
  assert (Hnz : or_number (c_limit criteria) 50 <> 0)
    by now apply or_number_nonzero.
  revert Hnz. generalize (or_number (c_limit criteria) 50). intros m Hm.
  unfold or_number. destruct (Z.eqb_spec m 0); [contradiction | reflexivity].
Qed.

Lemma fresh_entry_username (octokit : Octokit) (k : string) :
  b_username (fresh_entry octokit k) = k.
Proof. unfold fresh_entry. destruct (users_getByUsername octokit k); reflexivity. Qed.

Lemma grouped_usernames (octokit : Octokit) (found : list Repository)
    (businesses : JsObject Business) :
  grouped octokit found businesses ->
  map b_username (map snd businesses) = map fst businesses.
Proof.
  intros (_ & Hent & _). rewrite map_map.
  induction Hent as [| [k b] l Hkb _ IH]; simpl; [reflexivity |].
  rewrite IH. f_equal. unfold entry_of in Hkb. simpl in Hkb.
  rewrite Hkb. simpl. apply fresh_entry_username.
Qed.

(** What a run returns: nothing, or the ranked profiles of a grouping of the
    repositories found. *)
Lemma findBusinesses_profiles (octokit : Octokit) (criteria : Criteria)
    (log : list request) (found : list Repository) (ranked : list Business) :
  fst (search_businesses octokit criteria log) = Ok found ->
  fst (findBusinesses octokit criteria log) = Ok ranked ->
  ranked = []
  \/ exists businesses, grouped octokit found businesses /\ ranked = rank businesses.
Proof.
  intros Hfound. rewrite (findBusinesses_run _ _ _ Hfound). simpl fst.
  pose proof (@group_by_owner_grouped octokit found [] []
                (log ++ [SearchRepos (searchOptions_of (build_query criteria)
                                        (business_options criteria))])
                (grouped_nil octokit)) as Hg.
  unfold group_by_owner.
  destruct (fst (for_of found (group_repo octokit) [] _)) as [businesses | e].
  - intros [= <-]. right. exists businesses. split; [exact Hg | reflexivity].
  - intros [= <-]. now left.
Qed.

Lemma rank_In (businesses : JsObject Business) (b : Business) :
  In b (rank businesses) <-> In b (map snd businesses) /\ is_business b = true.
Proof.
  unfold rank. split.
  - intros H. apply (Permutation_in _ (Array_sort_perm _ _)) in H.
    apply filter_In in H. destruct H as [H Hb]. split; [| exact Hb].
    now apply (Permutation_in _ (Object_values_perm businesses)).
  - intros [H Hb].
    apply (Permutation_in _ (Permutation_sym (Array_sort_perm _ _))).
    apply filter_In. split; [| exact Hb].
    now apply (Permutation_in _ (Permutation_sym (Object_values_perm businesses))).
Qed.

(** X5. No two profiles of the list [findBusinesses] returns have the same
    [username]. *)
Theorem findBusinesses_unique_owners
    (octokit : Octokit) (criteria : Criteria) (log : list request) :
  exists ranked,
    fst (findBusinesses octokit criteria log) = Ok ranked
    /\ NoDup (map b_username ranked).
Proof.
  destruct (search_businesses_returns octokit criteria log) as [found Hfound].
  exists (Array_sort by_stars_desc (candidates octokit criteria log)).
  split; [apply findBusinesses_sorts_candidates |].
  destruct (@findBusinesses_profiles octokit criteria log found _ Hfound
              (findBusinesses_sorts_candidates octokit criteria log))
    as [Heq | (businesses & Hg & Heq)]; rewrite Heq; [constructor |].
  unfold rank.
  apply (Permutation_NoDup
           (Permutation_map b_username (Permutation_sym (Array_sort_perm _ _)))).
  apply distinct_images_filter.
  apply (Permutation_NoDup
           (Permutation_map b_username (Permutation_sym (Object_values_perm _)))).
  rewrite (grouped_usernames Hg). apply Hg.
Qed.

(** X6. Every profile [findBusinesses] returns has the type ["Organization"]
    or more than 5 public repositories. *)
Theorem findBusinesses_keeps_businesses_only
    (octokit : Octokit) (criteria : Criteria) (log : list request) :
  exists ranked,
    fst (findBusinesses octokit criteria log) = Ok ranked
    /\ forall b, In b ranked ->
         b_type b = "Organization" \/ exists n, b_public_repos b = Some n /\ 5 < n.
Proof.
  exists (Array_sort by_stars_desc (candidates octokit criteria log)).
  split; [apply findBusinesses_sorts_candidates |].
  intros b Hb. apply (Permutation_in _ (Array_sort_perm _ _)) in Hb.
  assert (Hbus : is_business b = true).
  { unfold candidates in Hb.
    destruct ((repositories <- search_businesses octokit criteria ;;
               group_by_owner octokit repositories) log) as [[businesses | e] log'];
      [| destruct Hb].
    apply filter_In in Hb. apply Hb. }
  unfold is_business in Hbus. apply orb_true_iff in Hbus.
  destruct Hbus as [Ht | Hp].
  - left. now apply String.eqb_eq.
  - right. destruct (b_public_repos b) as [n |]; [| discriminate].
    exists n. split; [reflexivity | now apply Z.ltb_lt].
Qed.

(** X7. Every profile [findBusinesses] returns is the account its lookup
    answered, holding the condensed form of exactly the found repositories
    of that owner, in the order the search gave them. *)
Theorem findBusinesses_profile_contents
    (octokit : Octokit) (criteria : Criteria) (log : list request)
    (found : list Repository) (ranked : list Business) (b : Business) :
  fst (search_businesses octokit criteria log) = Ok found ->
  fst (findBusinesses octokit criteria log) = Ok ranked ->
  In b ranked ->
  exists orgData,
    users_getByUsername octokit (b_username b) = Ok orgData
    /\ b = with_repositories (from_orgData (b_username b) orgData)
             (map brief (owned_by (b_username b) found))
    /\ In (b_username b) (map r_owner found).
Proof.
  intros Hfound Hranked Hb.
  destruct (findBusinesses_profiles _ _ _ Hfound Hranked)
    as [-> | (businesses & Hg & ->)]; [destruct Hb |].
  apply rank_In in Hb. destruct Hb as [Hb Hbus].
  apply in_map_iff in Hb. destruct Hb as ([k b'] & Heq & Hin). simpl in Heq. subst b'.
  destruct Hg as (_ & Hent & _ & Hkeys).
  rewrite Forall_forall in Hent. pose proof (Hent _ Hin) as Hkb.
  unfold entry_of in Hkb. simpl in Hkb.
  assert (Hname : b_username b = k)
    by (rewrite Hkb; simpl; apply fresh_entry_username).
  rewrite Hname.
  assert (Hk : In k (map fst businesses))
    by (apply in_map_iff; now exists (k, b)).
  unfold fresh_entry in Hkb.
  destruct (users_getByUsername octokit k) as [orgData | e].
  - exists orgData. split; [reflexivity |]. split; [exact Hkb | now apply Hkeys].
  - rewrite Hkb in Hbus. discriminate.
Qed.

Lemma findBusinesses_profile_contents_witness :
  exists orgData,
    users_getByUsername octokit_demo (b_username acme_profile) = Ok orgData
    /\ acme_profile
       = with_repositories (from_orgData (b_username acme_profile) orgData)
           (map brief (owned_by (b_username acme_profile) demo_repositories))
    /\ In (b_username acme_profile) (map r_owner demo_repositories).
Proof.
  apply (@findBusinesses_profile_contents octokit_demo no_criteria []
           demo_repositories [acme_profile] acme_profile).
  - reflexivity.
  - reflexivity.
  - now left.
Defined.

(** X8. When no owner of the found repositories bears a name inherited from
    [Object.prototype], a run of [findBusinesses] looks up the profile of
    every owner of a found repository exactly once, and of no other
    account. *)
Theorem findBusinesses_looks_up_each_owner
    (octokit : Octokit) (criteria : Criteria) (found : list Repository) (u : string) :
  fst (search_businesses octokit criteria []) = Ok found ->
  (forall r, In r found -> inherited (r_owner r) = false) ->
  count_occ string_dec (profile_fetches (snd (findBusinesses octokit criteria []))) u
  = if in_dec string_dec u (map r_owner found) then 1%nat else 0%nat.
Proof.
  intros Hfound Hinh. rewrite (findBusinesses_run _ _ _ Hfound). simpl snd.
  unfold group_by_owner.
  pose proof (@group_by_owner_fetch_set octokit found []
                ([] ++ [SearchRepos (searchOptions_of (build_query criteria)
                                       (business_options criteria))]) Hinh u) as Hset.
  assert (Hnd : NoDup (profile_fetches
                         (snd (for_of found (group_repo octokit) []
                                 ([] ++ [SearchRepos (searchOptions_of (build_query criteria)
                                                        (business_options criteria))]))))).
  { apply group_by_owner_fetches; [constructor | intros v []]. }
  destruct (in_dec string_dec u (map r_owner found)) as [Hin | Hnot].
  - apply NoDup_count_occ'; [exact Hnd |]. apply Hset. right. now split.
  - apply count_occ_not_In. intros H. apply Hset in H.
    destruct H as [[] | [H _]]. now apply Hnot.
Qed.

Lemma findBusinesses_looks_up_each_owner_witness :
  count_occ string_dec
    (profile_fetches (snd (findBusinesses octokit_demo no_criteria []))) "acme"
  = if in_dec string_dec "acme" (map r_owner demo_repositories) then 1%nat else 0%nat.
Proof.
  apply (@findBusinesses_looks_up_each_owner octokit_demo no_criteria
           demo_repositories "acme").
  - reflexivity.
  - intros r [<- | [<- | [<- | []]]]; reflexivity.
Defined.

(** X9. When the search yields no repository (an empty answer, a rejected
    request or an item without owner), [findBusinesses] returns the empty
    list after that one request: the query of the criteria, by stars,
    descending, [criteria.limit] results per page (50 when the limit is
    missing or 0), first page. *)
Theorem findBusinesses_nothing_found
    (octokit : Octokit) (criteria : Criteria) (log : list request) :
  fst (search_businesses octokit criteria log) = Ok [] ->
  findBusinesses octokit criteria log
  = (Ok [],
     log ++ [SearchRepos (mkSearchOptions (build_query criteria) "stars" "desc"
                            (or_number (c_limit criteria) 50) 1)]).
Proof.
  intros Hfound. rewrite (findBusinesses_run _ _ _ Hfound), business_request.
  reflexivity.
Qed.

Lemma findBusinesses_nothing_found_witness :
  findBusinesses octokit_rst zero_stars []
  = (Ok [], [] ++ [SearchRepos (mkSearchOptions (build_query zero_stars) "stars" "desc"
                                  (or_number (c_limit zero_stars) 50) 1)]).
Proof.
  apply (@findBusinesses_nothing_found octokit_rst zero_stars []).
  reflexivity.
Defined.

(** X10. When a found repository belongs to an owner whose name is inherited
    from [Object.prototype] ([constructor], [toString], [valueOf], ...),
    [findBusinesses] returns the empty list, whatever else was found. *)
Theorem findBusinesses_inherited_owner
    (octokit : Octokit) (criteria : Criteria) (log : list request)
    (found : list Repository) (r : Repository) :
  fst (search_businesses octokit criteria log) = Ok found ->
  In r found ->
  inherited (r_owner r) = true ->
  fst (findBusinesses octokit criteria log) = Ok [].
Proof.
  intros Hfound Hr Hi. rewrite (findBusinesses_run _ _ _ Hfound). simpl fst.
  unfold group_by_owner.
  destruct (@group_by_owner_throws octokit found [] []
              (log ++ [SearchRepos (searchOptions_of (build_query criteria)
                                      (business_options criteria))])
              (grouped_nil octokit)) as [e He]; [eauto |].
  now rewrite He.
Qed.

Lemma findBusinesses_inherited_owner_witness :
  fst (findBusinesses octokit_constructor no_criteria []) = Ok [].
Proof.
  apply (@findBusinesses_inherited_owner octokit_constructor no_criteria []
           constructor_repositories
           (mkRepository 2 "builder" "constructor/builder" "constructor" None
              "https://github.example/constructor/builder"
              "https://github.example/constructor/builder.git"
              (Some "Go") 40 0 0 [] "2023-01-01T00:00:00Z" "2024-05-01T00:00:00Z" None)).
  - reflexivity.
  - right. now left.
  - reflexivity.
Defined.

(** X11. When no owner of the found repositories bears an inherited name,
    every found repository whose owner's lookup succeeds with the type
    ["Organization"] or with more than 5 public repositories is held by a
    profile of the returned list. *)
Theorem findBusinesses_returns_every_business
    (octokit : Octokit) (criteria : Criteria) (log : list request)
    (found : list Repository) (ranked : list Business)
    (r : Repository) (orgData : OrgData) :
  fst (search_businesses octokit criteria log) = Ok found ->
  fst (findBusinesses octokit criteria log) = Ok ranked ->
  (forall r', In r' found -> inherited (r_owner r') = false) ->
  In r found ->
  users_getByUsername octokit (r_owner r) = Ok orgData ->
  od_type orgData = "Organization" \/ 5 < od_public_repos orgData ->
  exists b,
    In b ranked /\ b_username b = r_owner r /\ In (brief r) (b_repositories b).
Proof.
  intros Hfound Hranked Hinh Hr Hlookup Hbus.
  rewrite (findBusinesses_run _ _ _ Hfound) in Hranked. simpl fst in Hranked.
  pose proof (@group_by_owner_grouped octokit found [] []
                (log ++ [SearchRepos (searchOptions_of (build_query criteria)
                                        (business_options criteria))])
                (grouped_nil octokit)) as Hg.
  unfold group_by_owner in Hranked.
  destruct (fst (for_of found (group_repo octokit) [] _)) as [businesses | e].
  2: { destruct Hg as (r' & Hr' & Hi). rewrite (Hinh r' Hr') in Hi. discriminate. }
  injection Hranked as <-. simpl in Hg.
  destruct Hg as (Hnd & Hent & Hcov & _).
  destruct (own_property businesses (r_owner r)) as [b |] eqn:Hown;
    [| now apply Hcov in Hr].
  apply own_property_In in Hown.
  rewrite Forall_forall in Hent. pose proof (Hent _ Hown) as Hb.
  unfold entry_of, fresh_entry in Hb. simpl in Hb. rewrite Hlookup in Hb.
  exists b. split; [| split].
  - apply rank_In. split; [apply in_map_iff; now exists (r_owner r, b) |].
    rewrite Hb. unfold is_business. simpl. apply orb_true_iff.
    destruct Hbus as [-> | Hp]; [now left | right; now apply Z.ltb_lt].
  - now rewrite Hb.
  - rewrite Hb. simpl. apply in_map. apply filter_In.
    split; [exact Hr | apply String.eqb_refl].
Qed.

Lemma findBusinesses_returns_every_business_witness :
  exists b,
    In b [acme_profile]
    /\ b_username b = "acme"
    /\ In (mkRepoBrief "anvil" None (Some "Go") 40 "https://github.example/acme/anvil")
         (b_repositories b).
Proof.
  apply (@findBusinesses_returns_every_business octokit_demo no_criteria []
           demo_repositories [acme_profile]
           (mkRepository 3 "anvil" "acme/anvil" "acme" None
              "https://github.example/acme/anvil"
              "https://github.example/acme/anvil.git"
              (Some "Go") 40 0 0 [] "2023-01-01T00:00:00Z" "2024-05-01T00:00:00Z" None)
           (organization "acme")).
  - reflexivity.
  - reflexivity.
  - intros r [<- | [<- | [<- | []]]]; reflexivity.
  - right. right. now left.
  - reflexivity.
  - now left.
Defined.

(** The requests of the grouping loop are profile lookups. *)
Lemma group_by_owner_requests (octokit : Octokit) (rest : list Repository) :
  forall businesses log,
    exists owners,
      snd (for_of rest (group_repo octokit) businesses log)
      = log ++ map GetByUsername owners.
Proof.
  induction rest as [| repo rest IH]; intros businesses log.
  - exists []. simpl. now rewrite app_nil_r.
  - simpl for_of. unfold bind. rewrite group_repo_step.
    destruct (own_property businesses (r_owner repo)) as [b |].
    + apply IH.
    + destruct (inherited (r_owner repo)).
      * exists []. simpl. now rewrite app_nil_r.
      * destruct (IH (set_property
                        (set_property businesses (r_owner repo)
                           (fresh_entry octokit (r_owner repo)))
                        (r_owner repo)
                        (push_repository (fresh_entry octokit (r_owner repo)) (brief repo)))
                     (log ++ [GetByUsername (r_owner repo)])) as [owners Ho].
        exists (r_owner repo :: owners). rewrite Ho, <- app_assoc. reflexivity.
Qed.

(** X12. A run of [findBusinesses] makes one search request, with the query
    of the criteria, by stars, descending, [criteria.limit] results per page
    (50 when the limit is missing or 0), first page; every request after it
    is a profile lookup. *)
Theorem findBusinesses_requests
    (octokit : Octokit) (criteria : Criteria) (log : list request) :
  exists owners,
    snd (findBusinesses octokit criteria log)
    = log
      ++ SearchRepos (mkSearchOptions (build_query criteria) "stars" "desc"
                        (or_number (c_limit criteria) 50) 1)
         :: map GetByUsername owners.
Proof.
  destruct (search_businesses_returns octokit criteria log) as [found Hfound].
  rewrite (findBusinesses_run _ _ _ Hfound), business_request. simpl snd.
  unfold group_by_owner.
  destruct (group_by_owner_requests octokit found []
              (log ++ [SearchRepos (mkSearchOptions (build_query criteria) "stars" "desc"
                                      (or_number (c_limit criteria) 50) 1)]))
    as [owners Ho].
  exists owners. rewrite Ho, <- app_assoc. reflexivity.
Qed.

(** ** Properties of the query builder *)

Lemma join_nonempty (sep x : string) (l : list string) :
  x <> "" -> join sep (x :: l) <> "".
Proof.
  intros Hx. destruct x as [| c x]; [congruence |].
  destruct l; simpl; discriminate.
Qed.

(** X13. The query of [findBusinesses] is never empty and is made of at
    least one and at most five clauses. *)
Theorem build_query_never_empty (criteria : Criteria) :
  build_query criteria <> ""
  /\ (1 <= List.length (build_queries criteria) <= 5)%nat.
Proof.
  unfold build_query, build_queries.
  destruct (truthy_string (c_industry criteria)),
    (truthy_string (c_technology criteria)),
    (truthy_string (c_location criteria)),
    (truthy_string (c_company criteria)) eqn:Hcompany,
    (truthy_number (c_minStars criteria));
    cbn [app List.length Nat.eqb];
    (split; [| lia]);
    apply join_nonempty; try discriminate;
    destruct (template_string (c_company criteria)); discriminate.
Qed.

(** ** Properties of the keyword matching *)

(** X15. A keyword written in any letter case anywhere in the README text,
    inside a longer word too, is matched. *)
Theorem keywordMatches_any_case (pre mid post k : string) :
  In k businessKeywords ->
  toLowerCase mid = k ->
  exists matches,
    keywordMatches (Some (pre ++ mid ++ post)%string) = Ok matches /\ In k matches.
Proof.
  intros Hk Hmid. eexists. split; [reflexivity |].
  apply filter_In. split; [exact Hk |].
  apply includes_iff. exists (toLowerCase pre), (toLowerCase post).
  now rewrite !toLowerCase_app, Hmid.
Qed.

Lemma keywordMatches_any_case_witness :
  exists matches,
    keywordMatches (Some ("The Rapid" ++ "API" ++ "s toolkit")%string) = Ok matches
    /\ In "api" matches.
Proof.
  apply (@keywordMatches_any_case "The Rapid" "API" "s toolkit" "api").
  - unfold businessKeywords. simpl. tauto.
  - reflexivity.
Defined.

(** ** Properties of [analyzeRepository] *)








(** ** Properties of [getTrendingRepos] *)



(** X20. For a window keyword that is a name inherited from
    [Object.prototype], [getTrendingRepos] makes no request and returns the
    empty list. *)
Theorem getTrendingRepos_inherited_keyword
    (octokit : Octokit) (Date_now : Z) (Date_toISOString : Z -> string)
    (language since : string) (log : list request) :
  inherited since = true ->
  getTrendingRepos octokit Date_now Date_toISOString language since log = (Ok [], log).
Proof. apply getTrendingRepos_inherited. Qed.

Lemma getTrendingRepos_inherited_keyword_witness :
  getTrendingRepos octokit_demo sample_now sample_toISOString "Go" "toString" []
  = (Ok [], []).
Proof.
  apply (@getTrendingRepos_inherited_keyword octokit_demo sample_now sample_toISOString
           "Go" "toString" []).
  reflexivity.
Defined.

(* ================================================================== *)
(** * Rejection values that are not [Error] objects

    A promise can be rejected with any value, and a [catch] clause receives
    that value as it is. The handlers of the public operations evaluate
    [error.message] (lines 59, 100, 141, 242, 321 and 354), which throws a
    [TypeError] when the value is [null] or [undefined]. The module [Raw]
    embeds the six operations once more for clients whose rejection values
    are arbitrary, with each handler reading the message before it returns
    its value. The pure parts (query building, grouping, ranking, keyword
    matching, date window) are the definitions above. *)

Module Raw.

(** A value that is thrown or that rejects a promise: an [Error] object, a
    value that is neither an [Error] nor nullish (a string, a number, a plain
    object), or [null] / [undefined]. *)
Inductive thrown : Type :=
| ErrorObject (e : exn)
| OtherValue
| Nullish.

Inductive outcome (A : Type) : Type :=
| Returns (a : A)
| Throws (v : thrown).

Arguments Returns {A} a.
Arguments Throws {A} v.

Definition of_result {A} (r : result A) : outcome A :=
  match r with
  | Ok a => Returns a
  | Throw e => Throws (ErrorObject e)
  end.

(** What reading a property of [null] or [undefined] throws. *)
Definition unreadable : thrown :=
  ErrorObject (TypeError "Cannot read properties of undefined (reading 'message')").

(** [error.message]: the message of an [Error] object, [undefined] for
    another value that is not nullish, and a [TypeError] for a nullish one. *)
Definition message (error : thrown) : outcome (option string) :=
  match error with
  | ErrorObject (HttpError _ m) => Returns (Some m)
  | ErrorObject (TypeError m) => Returns (Some m)
  | OtherValue => Returns None
  | Nullish => Throws unreadable
  end.

(** [try { body } catch (error) { handler(error) }] without transport call. *)
Definition catch_pure {A} (body : outcome A) (handler : thrown -> outcome A)
    : outcome A :=
  match body with
  | Returns a => Returns a
  | Throws error => handler error
  end.

(** The handler [console.error(..., error.message); return value;]. *)
Definition report_pure {A} (value : A) (error : thrown) : outcome A :=
  match message error with
  | Returns _ => Returns value
  | Throws v => Throws v
  end.

Definition M (A : Type) : Type := list request -> outcome A * list request.

Definition ret {A} (a : A) : M A := fun log => (Returns a, log).

Definition throw {A} (v : thrown) : M A := fun log => (Throws v, log).

Definition bind {A B} (m : M A) (k : A -> M B) : M B :=
  fun log =>
    match m log with
    | (Returns a, log') => k a log'
    | (Throws v, log') => (Throws v, log')
    end.

Definition try_catch {A} (body : M A) (handler : thrown -> M A) : M A :=
  fun log =>
    match body log with
    | (Returns a, log') => (Returns a, log')
    | (Throws v, log') => handler v log'
    end.

Definition await {A} (req : request) (answer : outcome A) : M A :=
  fun log => (answer, log ++ [req]).

Definition lift {A} (o : outcome A) : M A := fun log => (o, log).

Local Notation "x <~ m ;; k" := (bind m (fun x => k))
  (at level 61, m at next level, right associativity).

(** The handler [console.error(..., error.message); return value;]. *)
Definition report {A} (value : A) (error : thrown) : M A :=
  text <~ lift (message error) ;; ret value.

Fixpoint for_of {A S} (xs : list A) (body : S -> A -> M S) (s : S) : M S :=
  match xs with
  | [] => ret s
  | x :: rest => s' <~ body s x ;; for_of rest body s'
  end.

(** The four endpoints, each answering with a value or rejecting with any
    value. *)
Record Client : Type := mkClient {
  repos_getContent : string -> string -> string -> string -> outcome FilePayload;
  repos_get : string -> string -> outcome RepoData;
  search_repos : SearchOptions -> outcome (list RepoItem);
  users_getByUsername : string -> outcome OrgData
}.

(** A tree snapshot whose directory requests may be rejected with any
    value. *)
Inductive item : Type :=
| FileItem (name path : string) (size : Z) (download_url : string)
| DirItem (name path : string) (contents : response)
| OtherItem (type name path : string)
with response : Type :=
| Rejects (v : thrown)
| DataArray (items : list item)
| DataObject (i : item).

(** [listRepoFiles], lines 25-62. *)
Fixpoint listRepoFiles (owner repo path ref : string) (extensions : list string)
    (r : response) {struct r} : outcome (list FileEntry) :=
  catch_pure
    (match r with
     | Rejects v => Throws v
     | DataArray contents =>
         (fix loop (contents : list item) (files : list FileEntry) {struct contents} :=
            match contents with
            | [] => Returns files
            | it :: rest =>
                match visit owner repo path ref extensions it files with
                | Returns files' => loop rest files'
                | Throws v => Throws v
                end
            end) contents []
     | DataObject it => visit owner repo path ref extensions it []
     end)
    (report_pure [])
with visit (owner repo path ref : string) (extensions : list string)
    (it : item) (files : list FileEntry) {struct it} : outcome (list FileEntry) :=
  match it with
  | FileItem name ipath size url =>
      match of_result (call_extname (StringValue path) name) with
      | Throws v => Throws v
      | Returns ext =>
          let fileExt := toLowerCase ext in
          if (Nat.eqb (List.length extensions) 0
              || existsb (String.eqb fileExt) extensions)%bool
          then Returns (files ++ [mkFileEntry name ipath size url "file" fileExt])
          else Returns files
      end
  | DirItem _ ipath contents =>
      match listRepoFiles owner repo ipath ref extensions contents with
      | Returns subFiles => Returns (files ++ subFiles)
      | Throws v => Throws v
      end
  | OtherItem _ _ _ => Returns files
  end.

Section Operations.

Variable client : Client.
Variable Buffer_base64_utf8 : string -> string.
Variable Date_now : Z.
Variable Date_toISOString : Z -> string.
Variable Date_parse : string -> option Z.

(** [fetchRepoFile], lines 72-103. *)
Definition fetchRepoFile (owner repo filePath ref : string) : M (option FileContent) :=
  try_catch
    (file <~ await (GetContent owner repo filePath ref)
                   (repos_getContent client owner repo filePath ref) ;;
     content <~
       (if option_string_eqb (fp_encoding file) "base64"
        then match fp_content file with
             | Some c => ret (Some (Buffer_base64_utf8 c))
             | None =>
                 throw (ErrorObject (TypeError "The first argument must be of type string"))
             end
        else ret (fp_content file)) ;;
     ret (Some {| fc_name := fp_name file;
                  fc_path := fp_path file;
                  fc_size := fp_size file;
                  fc_content := content;
                  fc_encoding := fp_encoding file;
                  fc_sha := fp_sha file;
                  fc_download_url := fp_download_url file |}))
    (report None).

(** [searchRepositories], lines 111-144. *)
Definition searchRepositories (query : string) (options : Options) : M (list Repository) :=
  try_catch
    (let searchOptions := searchOptions_of query options in
     items <~ await (SearchRepos searchOptions) (search_repos client searchOptions) ;;
     lift (of_result (map_result to_repository items)))
    (report []).

(** Line 222. *)
Definition push_to_owner (businesses : JsObject Business) (owner : string)
    (x : RepoBrief) : M (JsObject Business) :=
  match get_property businesses owner with
  | Own b => ret (set_property businesses owner (push_repository b x))
  | Inherited | Undefined =>
      throw (ErrorObject
               (TypeError "Cannot read properties of undefined (reading 'push')"))
  end.

(** Lines 188-228. The handler of lines 212-219 does not read the error. *)
Definition group_repo (businesses : JsObject Business) (repo : Repository)
    : M (JsObject Business) :=
  let owner := r_owner repo in
  businesses <~
    match get_property businesses owner with
    | Undefined =>
        try_catch
          (orgData <~ await (GetByUsername owner) (users_getByUsername client owner) ;;
           ret (set_property businesses owner (from_orgData owner orgData)))
          (fun _ => ret (set_property businesses owner (basic_entry owner)))
    | Own _ | Inherited => ret businesses
    end ;;
  push_to_owner businesses owner (brief repo).

(** [findBusinesses], lines 151-245. *)
Definition findBusinesses (criteria : Criteria) : M (list Business) :=
  try_catch
    (repositories <~ searchRepositories (build_query criteria) (business_options criteria) ;;
     businesses <~ for_of repositories group_repo [] ;;
     ret (rank businesses))
    (report []).

(** Lines 267-277: neither handler reads the error. *)
Fixpoint try_readmeFiles (owner repo : string) (filenames : list string)
    (readmeContent : option string) : M (option string) :=
  match filenames with
  | [] => ret readmeContent
  | filename :: rest =>
      found <~
        try_catch
          (readme <~ fetchRepoFile owner repo filename "main" ;;
           ret (match readme with
                | Some file => Some (fc_content file)
                | None => None
                end))
          (fun _ => ret None) ;;
      match found with
      | Some content => ret content
      | None => try_readmeFiles owner repo rest readmeContent
      end
  end.

(** Lines 260-278. *)
Definition read_readme (owner repo : string) : M (option string) :=
  try_catch
    (readme <~ fetchRepoFile owner repo "README.md" "main" ;;
     ret (match readme with
          | Some file => fc_content file
          | None => Some ""
          end))
    (fun _ => try_readmeFiles owner repo readmeFiles (Some "")).

(** [analyzeRepository], lines 253-324. *)
Definition analyzeRepository (owner repo : string) : M (option Analysis) :=
  try_catch
    (repoData <~ await (ReposGet owner repo) (repos_get client owner repo) ;;
     readmeContent <~ read_readme owner repo ;;
     matches <~ lift (of_result (keywordMatches readmeContent)) ;;
     ret (Some (analysis_of Date_now Date_parse repoData matches)))
    (report None).

(** [getTrendingRepos], lines 332-357. *)
Definition getTrendingRepos (language since : string) : M (list Repository) :=
  try_catch
    (date <~ lift (of_result (dateString Date_toISOString (sinceDate Date_now since))) ;;
     searchRepositories (trend_query date language)
       {| opt_sort := Some "stars";
          opt_order := Some "desc";
          opt_per_page := Some 30;
          opt_page := None |})
    (report []).

End Operations.

(** A client that answers every search with [answer] and is [c] otherwise. *)
Definition with_search (c : Client) (answer : outcome (list RepoItem)) : Client :=
  {| repos_getContent := repos_getContent c;
     repos_get := repos_get c;
     search_repos := fun _ => answer;
     users_getByUsername := users_getByUsername c |}.

(** A client all of whose requests are rejected with [undefined]. *)
Definition rejects_with_undefined : Client :=
  {| repos_getContent := fun _ _ _ _ => Throws Nullish;
     repos_get := fun _ _ => Throws Nullish;
     search_repos := fun _ => Throws Nullish;
     users_getByUsername := fun _ => Throws Nullish |}.

(** A computation that, when it throws, throws a value whose message can
    be read. *)
Definition tame {A} (m : M A) : Prop :=
  forall log v log', m log = (Throws v, log') -> v <> Nullish.


End Raw.

(** The client that answers as [o] does: its rejections are [Error]
    objects. *)
Definition raw_client (o : Octokit) : Raw.Client :=
  {| Raw.repos_getContent := fun owner repo path ref =>
       Raw.of_result (repos_getContent o owner repo path ref);
     Raw.repos_get := fun owner repo => Raw.of_result (repos_get o owner repo);
     Raw.search_repos := fun so => Raw.of_result (search_repos o so);
     Raw.users_getByUsername := fun u => Raw.of_result (users_getByUsername o u) |}.

(** ** Which rejections reach the caller *)


Lemma report_pure_readable {A} (value : A) (v : Raw.thrown) :
  v <> Raw.Nullish -> Raw.report_pure value v = Raw.Returns value.
Proof.
  intros Hv. destruct v as [[status m | m] | |]; try reflexivity. contradiction.
Qed.


(** What escapes such a handler is the [TypeError] of the message read. *)
Lemma caught_tame {A} (body : Raw.M A) (value : A) :
  Raw.tame (Raw.try_catch body (Raw.report value)).
Proof.
  intros log v log'. unfold Raw.try_catch.
  destruct (body log) as [[a | w] log1]; [discriminate |].
  destruct w as [[status m | m] | |]; cbn; intros [= <- _]; discriminate.
Qed.












Lemma fetchRepoFile_returns_or_tame (client : Raw.Client)
    (Buffer_base64_utf8 : string -> string) (owner repo filePath ref : string) :
  Raw.tame (Raw.fetchRepoFile client Buffer_base64_utf8 owner repo filePath ref).
Proof. apply caught_tame. Qed.





(** Induction over a tree snapshot of [Raw]. *)
Lemma raw_tree_ind (P : Raw.item -> Prop) (Q : Raw.response -> Prop)
    (Hfile : forall n p s u, P (Raw.FileItem n p s u))
    (Hdir : forall n p c, Q c -> P (Raw.DirItem n p c))
    (Hother : forall t n p, P (Raw.OtherItem t n p))
    (Hrej : forall v, Q (Raw.Rejects v))
    (Harr : forall l, Forall P l -> Q (Raw.DataArray l))
    (Hobj : forall i, P i -> Q (Raw.DataObject i)) :
  forall r, Q r.
Proof.
  fix IH 1.
  intros [v | l | i].
  - apply Hrej.
  - apply Harr.
    induction l as [| it l IHl]; constructor; [| exact IHl].
    destruct it as [n p s u | n p c | t n p].
    + apply Hfile.
    + apply Hdir, IH.
    + apply Hother.
  - apply Hobj.
    destruct i as [n p s u | n p c | t n p].
    + apply Hfile.
    + apply Hdir, IH.
    + apply Hother.
Qed.

(** [listRepoFiles] throws exactly when the request for its own path is
    rejected with a nullish value; otherwise it returns the empty array. *)
Lemma raw_listRepoFiles_outcome (r : Raw.response) :
  forall owner repo path ref extensions,
    Raw.listRepoFiles owner repo path ref extensions r
    = match r with
      | Raw.Rejects Raw.Nullish => Raw.Throws Raw.unreadable
      | _ => Raw.Returns []
      end.
Proof.
  revert r.
  apply (@raw_tree_ind
           (fun it => forall owner repo path ref extensions files,
                Raw.visit owner repo path ref extensions it files = Raw.Returns files
                \/ exists v, v <> Raw.Nullish
                             /\ Raw.visit owner repo path ref extensions it files
                                = Raw.Throws v)
           (fun r => forall owner repo path ref extensions,
                Raw.listRepoFiles owner repo path ref extensions r
                = match r with
                  | Raw.Rejects Raw.Nullish => Raw.Throws Raw.unreadable
                  | _ => Raw.Returns []
                  end)).
  - intros n p s u owner repo path ref extensions files. right.
    eexists. split; [| reflexivity]. discriminate.
  - intros n p c IHc owner repo path ref extensions files.
    simpl. rewrite IHc.
    destruct c as [[e | |] | l | i]; try (left; now rewrite app_nil_r).
    right. eexists. split; [| reflexivity]. discriminate.
  - intros t n p owner repo path ref extensions files. now left.
  - intros [[status m | m] | |] owner repo path ref extensions; reflexivity.
  - intros l Hl owner repo path ref extensions. simpl.
    match goal with
    | |- Raw.catch_pure (?loop l []) _ = _ =>
        assert (Hloop : forall files,
                   loop l files = Raw.Returns files
                   \/ exists v, v <> Raw.Nullish /\ loop l files = Raw.Throws v)
    end.
    { induction Hl as [| it l Hit _ IHl]; intros files.
      - now left.
      - destruct (Hit owner repo path ref extensions files) as [Hv | (v & Hne & Hv)];
          rewrite Hv; [apply IHl | eauto]. }
    destruct (Hloop []) as [H | (v & Hne & H)]; rewrite H; simpl;
      [reflexivity | now apply report_pure_readable].
  - intros i Hi owner repo path ref extensions. simpl.
    destruct (Hi owner repo path ref extensions []) as [H | (v & Hne & H)];
      rewrite H; simpl; [reflexivity | now apply report_pure_readable].
Qed.



Example findBusinesses_with_undefined_rejections :
  Raw.findBusinesses Raw.rejects_with_undefined no_criteria []
  = (Raw.Returns [], [SearchRepos (mkSearchOptions "type:org" "stars" "desc" 50 1)]).
Proof. reflexivity. Qed.

(** ** Agreement with the operations above

    On a client whose rejections are [Error] objects the operations of [Raw]
    return and log what the operations of the first part do. *)

(** The computation [m'] of [Raw] does what [m] does. *)
Definition agrees {A} (m : M A) (m' : Raw.M A) : Prop :=
  forall log, m' log = (Raw.of_result (fst (m log)), snd (m log)).

(** The tree snapshot of [Raw] for a snapshot of the first part. *)
Fixpoint raw_tree (r : response) : Raw.response :=
  match r with
  | Rejects e => Raw.Rejects (Raw.ErrorObject e)
  | DataArray items =>
      Raw.DataArray
        ((fix each (items : list item) : list Raw.item :=
            match items with
            | [] => []
            | it :: rest => raw_item it :: each rest
            end) items)
  | DataObject it => Raw.DataObject (raw_item it)
  end
with raw_item (it : item) : Raw.item :=
  match it with
  | FileItem name path size url => Raw.FileItem name path size url
  | DirItem name path contents => Raw.DirItem name path (raw_tree contents)
  | OtherItem type name path => Raw.OtherItem type name path
  end.

Lemma agrees_ret {A} (a : A) : agrees (ret a) (Raw.ret a).
Proof. intros log. reflexivity. Qed.

Lemma agrees_throw {A} (e : exn) : agrees (@throw A e) (Raw.throw (Raw.ErrorObject e)).
Proof. intros log. reflexivity. Qed.

Lemma agrees_lift {A} (r : result A) : agrees (lift r) (Raw.lift (Raw.of_result r)).
Proof. intros log. reflexivity. Qed.

Lemma agrees_await {A} (req : request) (answer : result A) :
  agrees (await req answer) (Raw.await req (Raw.of_result answer)).
Proof. intros log. reflexivity. Qed.

Lemma agrees_bind {A B} (m : M A) (m' : Raw.M A) (k : A -> M B) (k' : A -> Raw.M B) :
  agrees m m' -> (forall a, agrees (k a) (k' a)) -> agrees (bind m k) (Raw.bind m' k').
Proof.
  intros Hm Hk log. unfold bind, Raw.bind. rewrite Hm.
  destruct (m log) as [[a | e] log1]; simpl; [apply Hk | reflexivity].
Qed.

Lemma agrees_try_catch {A} (body : M A) (body' : Raw.M A)
    (handler : exn -> M A) (handler' : Raw.thrown -> Raw.M A) :
  agrees body body' ->
  (forall e, agrees (handler e) (handler' (Raw.ErrorObject e))) ->
  agrees (try_catch body handler) (Raw.try_catch body' handler').
Proof.
  intros Hb Hh log. unfold try_catch, Raw.try_catch. rewrite Hb.
  destruct (body log) as [[a | e] log1]; simpl; [reflexivity | apply Hh].
Qed.

Lemma agrees_report {A} (value : A) (e : exn) :
  agrees (ret value) (Raw.report value (Raw.ErrorObject e)).
Proof. intros log. destruct e; reflexivity. Qed.

Lemma agrees_for_of {A S} (xs : list A) (body : S -> A -> M S)
    (body' : S -> A -> Raw.M S) :
  (forall s x, agrees (body s x) (body' s x)) ->
  forall s, agrees (for_of xs body s) (Raw.for_of xs body' s).
Proof.
  intros Hbody. induction xs as [| x xs IH]; intros s; simpl.
  - apply agrees_ret.
  - apply agrees_bind; [apply Hbody | exact IH].
Qed.

Lemma raw_fetchRepoFile_agrees (o : Octokit) (Buffer_base64_utf8 : string -> string)
    (owner repo filePath ref : string) :
  agrees (fetchRepoFile o Buffer_base64_utf8 owner repo filePath ref)
    (Raw.fetchRepoFile (raw_client o) Buffer_base64_utf8 owner repo filePath ref).
Proof.
  unfold fetchRepoFile, Raw.fetchRepoFile.
  apply agrees_try_catch; [| intros e; apply agrees_report].
  apply agrees_bind; [apply agrees_await |]. intros file.
  apply agrees_bind; [| intros content; apply agrees_ret].
  destruct (option_string_eqb (fp_encoding file) "base64"); [| apply agrees_ret].
  destruct (fp_content file); [apply agrees_ret | apply agrees_throw].
Qed.

Lemma raw_searchRepositories_agrees (o : Octokit) (query : string) (options : Options) :
  agrees (searchRepositories o query options)
    (Raw.searchRepositories (raw_client o) query options).
Proof.
  unfold searchRepositories, Raw.searchRepositories.
  apply agrees_try_catch; [| intros e; apply agrees_report].
  cbv zeta. apply agrees_bind; [apply agrees_await |].
  intros items. apply agrees_lift.
Qed.

Lemma raw_group_repo_agrees (o : Octokit) (businesses : JsObject Business)
    (repo : Repository) :
  agrees (group_repo o businesses repo) (Raw.group_repo (raw_client o) businesses repo).
Proof.
  unfold group_repo, Raw.group_repo. apply agrees_bind.
  - destruct (get_property businesses (r_owner repo)); try apply agrees_ret.
    apply agrees_try_catch; [| intros e; apply agrees_ret].
    apply agrees_bind; [apply agrees_await | intros orgData; apply agrees_ret].
  - intros b. unfold push_to_owner, Raw.push_to_owner.
    destruct (get_property b (r_owner repo));
      [apply agrees_ret | apply agrees_throw | apply agrees_throw].
Qed.

Lemma raw_findBusinesses_agrees (o : Octokit) (criteria : Criteria) :
  agrees (findBusinesses o criteria) (Raw.findBusinesses (raw_client o) criteria).
Proof.
  unfold findBusinesses, Raw.findBusinesses, search_businesses, group_by_owner.
  apply agrees_try_catch; [| intros e; apply agrees_report].
  apply agrees_bind; [apply raw_searchRepositories_agrees |].
  intros repositories.
  apply agrees_bind; [| intros businesses; apply agrees_ret].
  apply agrees_for_of. intros businesses repo. apply raw_group_repo_agrees.
Qed.

Lemma raw_try_readmeFiles_agrees (o : Octokit) (Buffer_base64_utf8 : string -> string)
    (owner repo : string) (filenames : list string) (readmeContent : option string) :
  agrees (try_readmeFiles o Buffer_base64_utf8 owner repo filenames readmeContent)
    (Raw.try_readmeFiles (raw_client o) Buffer_base64_utf8 owner repo filenames
       readmeContent).
Proof.
  induction filenames as [| filename rest IH]; simpl.
  - apply agrees_ret.
  - apply agrees_bind.
    + apply agrees_try_catch; [| intros e; apply agrees_ret].
      apply agrees_bind; [apply raw_fetchRepoFile_agrees |].
      intros readme. apply agrees_ret.
    + intros [content |]; [apply agrees_ret | exact IH].
Qed.

Lemma raw_analyzeRepository_agrees (o : Octokit) (Buffer_base64_utf8 : string -> string)
    (Date_now : Z) (Date_parse : string -> option Z) (owner repo : string) :
  agrees (analyzeRepository o Buffer_base64_utf8 Date_now Date_parse owner repo)
    (Raw.analyzeRepository (raw_client o) Buffer_base64_utf8 Date_now Date_parse
       owner repo).
Proof.
  unfold analyzeRepository, Raw.analyzeRepository.
  apply agrees_try_catch; [| intros e; apply agrees_report].
  apply agrees_bind; [apply agrees_await |]. intros repoData.
  apply agrees_bind.
  - unfold read_readme, Raw.read_readme.
    apply agrees_try_catch; [| intros e; apply raw_try_readmeFiles_agrees].
    apply agrees_bind; [apply raw_fetchRepoFile_agrees |].
    intros readme. apply agrees_ret.
  - intros readmeContent.
    apply agrees_bind; [apply agrees_lift | intros matches; apply agrees_ret].
Qed.

Lemma raw_getTrendingRepos_agrees (o : Octokit) (Date_now : Z)
    (Date_toISOString : Z -> string) (language since : string) :
  agrees (getTrendingRepos o Date_now Date_toISOString language since)
    (Raw.getTrendingRepos (raw_client o) Date_now Date_toISOString language since).
Proof.
  unfold getTrendingRepos, Raw.getTrendingRepos.
  apply agrees_try_catch; [| intros e; apply agrees_report].
  apply agrees_bind; [apply agrees_lift |].
  intros date. apply raw_searchRepositories_agrees.
Qed.

Lemma raw_listRepoFiles_agrees (owner repo path ref : string)
    (extensions : list string) (r : response) :
  Raw.listRepoFiles owner repo path ref extensions (raw_tree r)
  = Raw.of_result (listRepoFiles owner repo path ref extensions r).
Proof.
  rewrite raw_listRepoFiles_outcome, listRepoFiles_is_empty.
  destruct r; reflexivity.
Qed.
